(** * request-ssl: certificate pinning around the [request] HTTP client

    A shallow embedding of [lib/index.js] and the properties of its
    fingerprint registry, error catalogue and handshake interceptor.

    Conventions of the embedding.
    - A JavaScript string is a [string]: a sequence of code units, here
      restricted to U+0000..U+00FF (one [ascii] per code unit).
    - The objects [fingerprints] and [ERRORS] are plain objects used as
      dictionaries: their own properties are a [gmap string string] and a
      fixed table, and a read, a write and the operator [in] also see the
      members that every plain object inherits from [Object.prototype].
    - [undefined]/[null] is [None] (or [Undefined] for a value read from an
      object); a value is falsy when it is undefined or the empty string.
    - Module-level variables ([fingerprints], [secureProtocol],
      [Request._lastURL]) are threaded explicitly; a [throw] is the [Throw]
      outcome of a small state-and-exception monad.
    - [debug(...)] calls only log and are left out. *)

From Stdlib Require Import String Ascii List Bool Arith Lia.
From stdpp Require Import gmap strings list.

Local Open Scope string_scope.
Local Open Scope list_scope.

(** ** JavaScript built-ins used by the library *)

Module JS.

(** [!!s] for a string [s]. *)
Definition truthy (s : string) : bool :=
  match s with
  | EmptyString => false
  | String _ _ => true
  end.

(** [!!v] for a value that is a string or [undefined]. *)
Definition truthy_opt (v : option string) : bool :=
  match v with
  | Some s => truthy s
  | None => false
  end.

(** [a || b] where [a] may be [null]. *)
Definition or_else (a : option string) (b : string) : string :=
  match a with
  | Some s => if truthy s then s else b
  | None => b
  end.

Definition code (c : ascii) : nat := nat_of_ascii c.

Definition in_range (lo hi : nat) (c : ascii) : bool :=
  ((lo <=? code c)%nat && (code c <=? hi)%nat).

Definition is_digit (c : ascii) : bool := in_range 48 57 c.
Definition is_upper (c : ascii) : bool := in_range 65 90 c.
Definition is_lower (c : ascii) : bool := in_range 97 122 c.

(** The class [\s] of regular expressions, which is also what
    [String.prototype.trim] removes, on code units up to U+00FF. *)
Definition is_space (c : ascii) : bool :=
  in_range 9 13 c || (code c =? 32)%nat || (code c =? 160)%nat.

Definition lower_char (c : ascii) : ascii :=
  if is_upper c then ascii_of_nat (code c + 32) else c.

Fixpoint toLowerCase (s : string) : string :=
  match s with
  | EmptyString => EmptyString
  | String c s' => String (lower_char c) (toLowerCase s')
  end.

Fixpoint forallb_str (p : ascii -> bool) (s : string) : bool :=
  match s with
  | EmptyString => true
  | String c s' => p c && forallb_str p s'
  end.

Fixpoint trimStart (s : string) : string :=
  match s with
  | EmptyString => EmptyString
  | String c s' => if is_space c then trimStart s' else s
  end.

Fixpoint trimEnd (s : string) : string :=
  match s with
  | EmptyString => EmptyString
  | String c s' =>
      match trimEnd s' with
      | EmptyString => if is_space c then EmptyString else String c EmptyString
      | t => String c t
      end
  end.

Definition trim (s : string) : string := trimEnd (trimStart s).

(** The remainder of [s] after the prefix [p], when [s] starts with [p]. *)
Fixpoint strip_prefix (p s : string) : option string :=
  match p, s with
  | EmptyString, _ => Some s
  | String a p', String b s' =>
      if Ascii.eqb a b then strip_prefix p' s' else None
  | String _ _, EmptyString => None
  end.

(** [/^p/.test(s)] for a literal [p]. *)
Definition starts_with (p s : string) : bool :=
  match strip_prefix p s with
  | Some _ => true
  | None => false
  end.

(** The prefix of [s] before the first code unit satisfying [stop], and
    the remainder starting at that code unit. *)
Fixpoint break (stop : ascii -> bool) (s : string) : string * string :=
  match s with
  | EmptyString => (EmptyString, EmptyString)
  | String c s' =>
      if stop c then (EmptyString, s)
      else let '(a, b) := break stop s' in (String c a, b)
  end.

(** [s.lastIndexOf(c)]: [None] when [c] does not occur, otherwise the
    text before and after the last occurrence. *)
Fixpoint break_last (c : ascii) (s : string) : option (string * string) :=
  match s with
  | EmptyString => None
  | String d s' =>
      match break_last c s' with
      | Some (a, b) => Some (String d a, b)
      | None => if Ascii.eqb d c then Some (EmptyString, s') else None
      end
  end.

(** [s.split(sep)] for a separator of one code unit. *)
Fixpoint split (sep : ascii) (s : string) : list string :=
  match s with
  | EmptyString => [EmptyString]
  | String c s' =>
      if Ascii.eqb c sep then EmptyString :: split sep s'
      else match split sep s' with
           | t :: ts => String c t :: ts
           | [] => [String c EmptyString]
           end
  end.

(** [a.join(sep)]. *)
Fixpoint join (sep : string) (a : list string) : string :=
  match a with
  | [] => EmptyString
  | [x] => x
  | x :: a' => x +:+ sep +:+ join sep a'
  end.

(** [a.splice(start)] with a single argument removes every element from
    index [start] on and returns the removed elements; the pair is
    (returned array, what is left in [a]). *)
Definition splice {A} (a : list A) (start : nat) : list A * list A :=
  (drop start a, take start a).

(** [util.format(f, ...args)] for string arguments and the directives
    [%s] and [%%]: each [%s] consumes one argument (and stays as it is
    once the arguments are used up), the arguments left over are
    appended, each after a space. *)
Fixpoint format (f : string) (args : list string) : string :=
  match f with
  | EmptyString => fold_right (fun a r => " " +:+ a +:+ r) EmptyString args
  | String c f' =>
      match f' with
      | String d f'' =>
          if Ascii.eqb c "%" && Ascii.eqb d "s" then
            match args with
            | a :: args' => a +:+ format f'' args'
            | [] => "%s" +:+ format f'' []
            end
          else if Ascii.eqb c "%" && Ascii.eqb d "%" then
            String "%" (format f'' args)
          else String c (format f' args)
      | EmptyString => String c (format f' args)
      end
  end.

(** [util.format(f, ...args)] where [f] can be [undefined]: a first
    argument that is not a string is printed like the others, here
    [undefined] followed by the string arguments as they are, each after a
    space (older versions of Node print those strings in quotes). *)
Definition format_value (f : option string) (args : list string) : string :=
  match f with
  | Some f => format f args
  | None => "undefined" +:+ fold_right (fun a r => " " +:+ a +:+ r) EmptyString args
  end.

End JS.

(** ** Node's [url.parse]

    The library calls [urlib.parse(s).protocol] and [urlib.parse(s).host]
    of Node's built-in [url] module, which is not part of the repository.
    This is a model of that parser as the library was written against it
    (the parser of Node 0.10), for the components the library reads.
    Hostnames holding code units above U+007F would go through punycode,
    which is not modelled: they are left as they are.  The user information
    before an at-sign is kept as written ([decodeURIComponent], which throws
    on a malformed escape, is not applied to it). *)

Module Url.
Import JS.

Record t := mk {
  protocol : option string;
  slashes : bool;
  auth : option string;
  port : option string;
  hostname : option string;
  host : option string
}.

Fixpoint mem_char (c : ascii) (chars : string) : bool :=
  match chars with
  | EmptyString => false
  | String d chars' => Ascii.eqb c d || mem_char c chars'
  end.

Definition is_proto_char (c : ascii) : bool :=
  is_lower c || is_upper c || is_digit c || mem_char c ".+-".

(** The run of protocol characters at the start of [s] when a colon
    follows it, and the text after that colon. *)
Fixpoint proto_run (s : string) : option (string * string) :=
  match s with
  | EmptyString => None
  | String c s' =>
      if Ascii.eqb c ":" then Some (EmptyString, s')
      else if is_proto_char c then
        match proto_run s' with
        | Some (p, r) => Some (String c p, r)
        | None => None
        end
      else None
  end.

(** [protocolPattern = /^([a-z0-9.+-]+:)/i]: the match, colon included,
    and the rest of the input. *)
Definition protocolPattern (s : string) : option (string * string) :=
  match proto_run s with
  | Some (String c p, r) => Some (String c p +:+ ":", r)
  | _ => None
  end.

Definition hostlessProtocol (proto : string) : bool :=
  bool_decide (proto ∈ ["javascript"; "javascript:"]).

Definition slashedProtocol (proto : string) : bool :=
  bool_decide (proto ∈ ["http"; "https"; "ftp"; "gopher"; "file";
                        "http:"; "https:"; "ftp:"; "gopher:"; "file:"]).

Definition hostEndingChars : string := "/?#".

(** [nonHostChars]: the characters [%], [/], [?], [;], [#], the quote,
    the "unwise" ones and the delimiters (with space, CR, LF and TAB). *)
Definition nonHostChars : string :=
  "%/?;#'{}|\^`<>" +:+
  String (ascii_of_nat 34) (String (ascii_of_nat 32) (String (ascii_of_nat 13)
    (String (ascii_of_nat 10) (String (ascii_of_nat 9) EmptyString)))).

(** [rest.match(/^\/\/[^@\/]+@[^@\/]+/)] *)
Definition slashes_auth_pattern (rest : string) : bool :=
  match strip_prefix "//" rest with
  | Some r =>
      let '(a, b) := break (fun c => mem_char c "@/") r in
      truthy a &&
      match b with
      | String c (String d _) => Ascii.eqb c "@" && negb (mem_char d "@/")
      | _ => false
      end
  | None => false
  end.

(** [portPattern = /:[0-9]*$/] applied by [parseHost]: the text before
    the match and the digits after the colon. *)
Definition portPattern (h : string) : option (string * string) :=
  match break_last ":" h with
  | Some (a, digits) =>
      if forallb_str is_digit digits then Some (a, digits) else None
  | None => None
  end.

Definition is_hostname_char (c : ascii) : bool :=
  is_lower c || is_digit c || is_upper c || mem_char c "_-".

(** [hostnamePartPattern = /^[a-z0-9A-Z_-]{0,63}$/] *)
Definition hostnamePartPattern (part : string) : bool :=
  forallb_str is_hostname_char part && (String.length part <=? 63)%nat.

(** First group of [hostnamePartStart]: the longest prefix of at most 63
    hostname characters (the second group takes what is left). *)
Fixpoint hostnamePartStart (n : nat) (part : string) : string :=
  match n, part with
  | S n', String c part' =>
      if is_hostname_char c then String c (hostnamePartStart n' part')
      else EmptyString
  | _, _ => EmptyString
  end.

(** The part with every code unit above 127 replaced by [x]. *)
Fixpoint ascii_only (part : string) : string :=
  match part with
  | EmptyString => EmptyString
  | String c part' =>
      String (if (127 <? code c)%nat then "x"%char else c) (ascii_only part')
  end.

(** The validation loop over [hostparts]: [None] when every part is
    accepted, otherwise the parts kept for the hostname. *)
Fixpoint validate_parts (validParts hostparts : list string)
  : option (list string) :=
  match hostparts with
  | [] => None
  | part :: hostparts' =>
      if negb (truthy part) then validate_parts (validParts ++ [part]) hostparts'
      else if hostnamePartPattern part then
        validate_parts (validParts ++ [part]) hostparts'
      else if hostnamePartPattern (ascii_only part) then
        validate_parts (validParts ++ [part]) hostparts'
      else Some (validParts ++ [hostnamePartStart 63 part])
  end.

Definition validate_hostname (hostname : string) : string :=
  match validate_parts [] (split "." hostname) with
  | None => hostname
  | Some validParts => join "." validParts
  end.

Definition is_ipv6Hostname (hostname : string) : bool :=
  match hostname with
  | String c _ =>
      Ascii.eqb c "[" &&
      match break_last "]" hostname with
      | Some (_, EmptyString) => true
      | _ => false
      end
  | EmptyString => false
  end.

Definition hostnameMaxLen : nat := 255.

(** The host section of [Url.prototype.parse], entered with the text
    after the protocol and the slashes. *)
Definition parse_host (rest : string) : t -> t := fun u =>
  let '(before, after) := break (fun c => mem_char c hostEndingChars) rest in
  let '(auth, rest) :=
    match break_last "@" before with
    | Some (a, b) => (Some a, b +:+ after)
    | None => (None, rest)
    end in
  let '(host, _) := break (fun c => mem_char c nonHostChars) rest in
  let '(port, host) :=
    match portPattern host with
    | Some (h, digits) => (if truthy digits then Some digits else None, h)
    | None => (None, host)
    end in
  let hostname := host in
  let hostname :=
    if is_ipv6Hostname hostname then hostname else validate_hostname hostname in
  let hostname :=
    if (hostnameMaxLen <? String.length hostname)%nat then EmptyString
    else toLowerCase hostname in
  let p := match port with Some d => ":" +:+ d | None => EmptyString end in
  mk (protocol u) (slashes u) auth port (Some hostname) (Some (hostname +:+ p)).

(** [url.parse(url)], with [parseQueryString] and [slashesDenoteHost]
    left out as the library does. *)
Definition parse (url : string) : t :=
  let rest := trim url in
  let '(proto, rest) :=
    match protocolPattern rest with
    | Some (p, r) => (Some p, r)
    | None => (None, rest)
    end in
  let lowerProto := toLowerCase <$> proto in
  let hostless := from_option hostlessProtocol false proto in
  let slashes :=
    (bool_decide (is_Some proto) || slashes_auth_pattern rest) &&
    bool_decide (is_Some (strip_prefix "//" rest)) in
  let strip := slashes && negb hostless in
  let rest := if strip then from_option id rest (strip_prefix "//" rest) else rest in
  let u := mk lowerProto strip None None None None in
  if negb hostless &&
     (slashes || from_option (fun p => negb (slashedProtocol p)) false proto)
  then parse_host rest u
  else u.

End Url.

(** ** Plain objects used as dictionaries *)

(** What a read of [obj[key]] gives on an object whose own properties are
    strings: [undefined], a string of its own, or the member of that name
    inherited from [Object.prototype] (a function, or for [__proto__] the
    prototype itself). *)
Inductive value : Type :=
| Undefined
| Str (s : string)
| Inherited (name : string).

#[global] Instance value_eq_dec : EqDecision value.
Proof. solve_decision. Defined.

(** The names that a plain object inherits from [Object.prototype]. *)
Definition Object_prototype : list string :=
  [ "constructor"; "hasOwnProperty"; "isPrototypeOf"; "propertyIsEnumerable";
    "toLocaleString"; "toString"; "valueOf"; "__defineGetter__";
    "__defineSetter__"; "__lookupGetter__"; "__lookupSetter__"; "__proto__" ].

Definition inherited (key : string) : bool :=
  existsb (String.eqb key) Object_prototype.

(** [!!v]: an inherited member is a function or an object, hence truthy. *)
Definition truthy_value (v : value) : bool :=
  match v with
  | Undefined => false
  | Str s => JS.truthy s
  | Inherited _ => true
  end.

(** [obj[key]]: an own property shadows an inherited member. *)
Definition obj_get (own : gmap string string) (key : string) : value :=
  match own !! key with
  | Some s => Str s
  | None => if inherited key then Inherited key else Undefined
  end.

(** [obj[key] = s] for a string [s]: the assignment creates or overwrites an
    own property, except under the key [__proto__], whose setter ignores a
    value that is not an object. *)
Definition obj_set (key s : string) (own : gmap string string)
  : gmap string string :=
  if String.eqb key "__proto__" then own else <[key := s]> own.

(** ** State and exceptions *)

(** A plain [Error] thrown by the library, with its message. *)
Record Error := { error_message : string }.

Inductive completion (A : Type) : Type :=
| Return (a : A)
| Throw (e : Error).
Arguments Return {A} a.
Arguments Throw {A} e.

(** A computation over a state [S] that may throw. *)
Definition M (S A : Type) : Type := S -> completion A * S.

Definition ret {S A} (a : A) : M S A := fun s => (Return a, s).
Definition throw {S A} (msg : string) : M S A :=
  fun s => (Throw {| error_message := msg |}, s).
Definition bind {S A B} (m : M S A) (k : A -> M S B) : M S B :=
  fun s =>
    match m s with
    | (Return a, s') => k a s'
    | (Throw e, s') => (Throw e, s')
    end.
Definition get {S} : M S S := fun s => (Return s, s).
Definition modify {S} (f : S -> S) : M S unit := fun s => (Return tt, f s).
Definition lift {A S} (c : completion A) : M S A := fun s => (c, s).

#[global] Instance M_ret {S} : MRet (M S) := fun A a => ret a.
#[global] Instance M_bind {S} : MBind (M S) := fun A B k m => bind m k.

(** ** The library *)

(** The module-level variables. *)
Record globals := mk_globals {
  fingerprints : gmap string string;
  secureProtocol : string;
  _lastURL : option string
}.

Definition initial_globals : globals :=
  {| fingerprints := ∅; secureProtocol := "SSLv23_method"; _lastURL := None |}.

Definition set_fingerprints (f : gmap string string -> gmap string string)
  (g : globals) : globals :=
  {| fingerprints := f (fingerprints g);
     secureProtocol := secureProtocol g;
     _lastURL := _lastURL g |}.

Definition set_lastURL (v : option string) (g : globals) : globals :=
  {| fingerprints := fingerprints g;
     secureProtocol := secureProtocol g;
     _lastURL := v |}.

(** *** The error catalogue *)

Record RequestSSLError := {
  id : string;
  name : string;
  message : option string
}.

(** [new RequestSSLError(message, id)], where [message] can be
    [undefined]. *)
Definition new_RequestSSLError (message : option string) (id : string)
  : RequestSSLError :=
  {| id := id; name := "RequestSSLError"; message := message |}.

Record error_entry := { entry_message : string; argcount : nat }.

Definition domain_invalid : string := "request.ssl.security.domain.invalid".
Definition domain_notauthorized : string :=
  "request.ssl.security.domain.notauthorized".
Definition domain_fingerprint_mismatch : string :=
  "request.ssl.security.domain.fingerprint.mismatch".

Definition ERRORS : list (string * error_entry) :=
  [ (domain_invalid,
     {| entry_message := "SSL authorization failed. URL: %s does not have a valid fingerprint which can be used to verify the SSL certificate.";
        argcount := 1 |});
    (domain_notauthorized,
     {| entry_message := "SSL authorization failed. URL to %s is not authorized for SSL.";
        argcount := 1 |});
    (domain_fingerprint_mismatch,
     {| entry_message := "SSL authorization failed. URL to %s is not authorized for SSL. Mismatched SSL fingerprint. This likely means that the URL doesn't point to the expected server or there is an unexpected man-in-the-middle.";
        argcount := 1 |}) ].

(** The own property [key] of a table, if it has one. *)
Fixpoint table_lookup {V} (table : list (string * V)) (key : string) : option V :=
  match table with
  | [] => None
  | (k, v) :: table' => if String.eqb k key then Some v else table_lookup table' key
  end.

(** The message of the internal failure; the stack trace that the source
    appends to it depends on the call site and is left out. *)
Definition internal_failure (errorcode what : string) : string :=
  "Internal failure. Unexpected usage of internal command. Please report error code: "
  +:+ errorcode +:+ "(" +:+ what
  +:+ ") to the developer with the following stack trace:".

(** What [ERRORS[errorcode]] shows of its [message] and [argcount]: those
    of the entry, or nothing for a member inherited from
    [Object.prototype], which has neither property. *)
Record entry_view := {
  view_message : option string;
  view_argcount : option nat
}.

(** [ERRORS[errorcode]] when [errorcode in ERRORS], which holds for the
    three entries and for every inherited name; [None] when it does not. *)
Definition ERRORS_get (errorcode : string) : option entry_view :=
  match table_lookup ERRORS errorcode with
  | Some entry =>
      Some {| view_message := Some (entry_message entry);
              view_argcount := Some (argcount entry) |}
  | None =>
      if inherited errorcode
      then Some {| view_message := None; view_argcount := None |}
      else None
  end.

(** [entry.argcount && entry.argcount !== args.length] *)
Definition argcount_differs (argcount : option nat) (n : nat) : bool :=
  match argcount with
  | Some c => negb (c =? 0)%nat && negb (c =? n)%nat
  | None => false
  end.

Definition createErrorMessage (errorcode : string) (args : list string)
  : completion RequestSSLError :=
  match ERRORS_get errorcode with
  | Some entry =>
      if argcount_differs (view_argcount entry) (length args)
      then Throw {| error_message := internal_failure errorcode "invalid args" |}
      else Return (new_RequestSSLError
                     (if negb (length args =? 0)%nat
                      then Some (JS.format_value (view_message entry) args)
                      else view_message entry)
                     errorcode)
  | None =>
      Throw {| error_message := internal_failure errorcode "invalid error code" |}
  end.

(** *** The fingerprint registry *)

Definition getDomain (url : string) : string :=
  let domain := Url.host (Url.parse url) in
  JS.or_else domain url.

(** The key of the wildcard search for [domain]. *)
Definition wildcard (domain : string) : string :=
  let u := Url.parse domain in
  let tokens := JS.split "." (JS.or_else (Url.host u) domain) in
  "*." +:+ JS.join "."
    (fst (JS.splice tokens (if (1 <? length tokens)%nat then 0 else 1))).

(** The argument of the one call in the library is the host of a parsed
    URL, which holds no user information: [url.parse] cannot throw on it. *)
Definition getFingerprintForURL (fps : gmap string string) (url : string)
  : value :=
  let domain := getDomain url in
  let found := obj_get fps domain in
  if negb (truthy_value found) then
    (* try a wildcard search *)
    obj_get fps (wildcard domain)
  else found.

(** [fingerprint.replace(re, '$1')] where [re] is the label [SHA1], one
    white-space character and [Fingerprint=], anchored at the start and
    followed by a group for the rest of the line.  The match is replaced by
    its group and the text after the line is kept, so the result is the
    input without the label. *)
Definition strip_label (fingerprint : string) : string :=
  match JS.strip_prefix "SHA1" fingerprint with
  | Some (String c rest) =>
      if JS.is_space c then
        match JS.strip_prefix "Fingerprint=" rest with
        | Some value => value
        | None => fingerprint
        end
      else fingerprint
  | _ => fingerprint
  end.

Definition addFingerprint (url fingerprint : string) : M globals unit :=
  if negb (JS.truthy url) then throw "missing name"
  else if negb (JS.truthy fingerprint) then throw "missing fingerprint"
  else
    let name := getDomain url in
    let fingerprint := strip_label fingerprint in
    modify (set_fingerprints (obj_set name fingerprint)).

Definition removeFingerprint (name : string) : M globals unit :=
  let name := getDomain name in
  modify (set_fingerprints (fun fps => delete name fps)).

Definition removeAllFingerprints : M globals unit :=
  modify (set_fingerprints (fun _ => ∅)).

Definition setDefaultSecureProtocol (value : string) : M globals unit :=
  modify (fun g => {| fingerprints := fingerprints g;
                      secureProtocol := value;
                      _lastURL := _lastURL g |}).

Definition getLastURL : M globals (option string) :=
  g ← get; mret (_lastURL g).

Definition resetLastURL : M globals unit := modify (set_lastURL None).

(** *** The pinned request *)

(** What the library does to the outside world during an exchange. *)
Inductive effect : Type :=
| Abort                              (* req.abort() *)
| Callback (err : RequestSSLError)   (* originalCallback(err) *)
| EmitError (err : RequestSSLError). (* req.emit('error', err) *)

(** The options object handed to the transport. *)
Record options := {
  opt_url : string;
  agentOptions : option (gmap string string)
}.

(** The object [req] together with the variables of [Request] that its
    listeners close over.  [callback] tells whether the last argument is a
    function; [isSSL] tells whether the listeners are attached;
    [originalCallback] tells whether that variable still holds the caller's
    function. *)
Record request := mk_request {
  transport_opts : options;
  transport_callback : bool;
  isSSL : bool;
  url : string;
  hasCallback : bool;
  originalCallback : bool;
  trace : list effect
}.

Definition world : Type := globals * request.

Definition log (e : effect) : M world unit :=
  modify (fun '(g, r) =>
    (g, mk_request (transport_opts r) (transport_callback r) (isSSL r) (url r)
          (hasCallback r) (originalCallback r) (trace r ++ [e]))).

Definition set_url (v : string) : M world unit :=
  modify (fun '(g, r) =>
    (g, mk_request (transport_opts r) (transport_callback r) (isSSL r) v
          (hasCallback r) (originalCallback r) (trace r))).

Definition set_hasCallback (v : bool) : M world unit :=
  modify (fun '(g, r) =>
    (g, mk_request (transport_opts r) (transport_callback r) (isSSL r) (url r)
          v (originalCallback r) (trace r))).

Definition set_originalCallback (v : bool) : M world unit :=
  modify (fun '(g, r) =>
    (g, mk_request (transport_opts r) (transport_callback r) (isSSL r) (url r)
          (hasCallback r) v (trace r))).

Definition set_Request_lastURL (v : string) : M world unit :=
  modify (fun '(g, r) => (set_lastURL (Some v) g, r)).

(** [function Request()] called with a URL (or an options object holding
    it) and possibly a callback.  [request.apply(null, args)] receives the
    options and the caller's own callback; the listeners are attached to
    the object it returns. *)
Definition Request (o : options) (callback : bool) : M globals request :=
  let url := opt_url o in
  if negb (JS.truthy url) then throw "missing url"
  else
    let isSSL := bool_decide (Url.protocol (Url.parse url) = Some "https:") in
    g ← get;
    let opts :=
      if isSSL then
        {| opt_url := url;
           agentOptions :=
             Some (<["secureProtocol" := secureProtocol g]>
                     (default ∅ (agentOptions o))) |}
      else o in
    if isSSL then
      let hasCallback := callback in
      let originalCallback := hasCallback && callback in
      modify (set_lastURL (Some url));;
      mret (mk_request opts callback true url hasCallback originalCallback [])
    else
      mret (mk_request opts callback false url false false []).

(** [wrappedCallback], which the listeners call as [callback].  The event
    emitted without a callback is recorded as such; what the emitter then
    does with it (it hands the error to the ['error'] listeners of the
    request, and raises it when there is none) is the transport's part. *)
Definition wrappedCallback (err : RequestSSLError) : M world unit :=
  '(_, r) ← get;
  if hasCallback r && originalCallback r then
    log (Callback err);;
    set_originalCallback false
  else if negb (hasCallback r) then
    set_hasCallback true;;
    log (EmitError err)
  else mret tt.

(** The listener of ['response'], for a response whose final request went
    to [host] over a socket whose peer certificate has [fingerprint]. *)
Definition on_response (host fingerprint : string) : M world unit :=
  set_url host;;
  set_Request_lastURL
    (if JS.starts_with "https:" host then host else "https://" +:+ host);;
  '(g, r) ← get;
  let shouldMatch := getFingerprintForURL (fingerprints g) (url r) in
  if negb (truthy_value shouldMatch) then
    log Abort;;
    err ← lift (createErrorMessage domain_invalid [url r]);
    wrappedCallback err
  else if negb (bool_decide (shouldMatch = Str fingerprint)) then
    log Abort;;
    err ← lift (createErrorMessage domain_fingerprint_mismatch [url r]);
    wrappedCallback err
  else
    (* good to go if we get here *)
    mret tt.

(** The listener of ['secureConnect'] on the socket. *)
Definition on_secureConnect (authorized : bool) : M world unit :=
  '(_, r) ← get;
  if authorized then
    (* the authorization is done in the response listener *)
    mret tt
  else
    log Abort;;
    err ← lift (createErrorMessage domain_notauthorized [url r]);
    wrappedCallback err.

(** The two signals an exchange receives from the transport. *)
Inductive signal : Type :=
| secureConnect (authorized : bool)
| response (host fingerprint : string).

(** Delivery of a signal: the listeners exist only on a pinned request. *)
Definition deliver (s : signal) : M world unit :=
  '(_, r) ← get;
  if isSSL r then
    match s with
    | secureConnect authorized => on_secureConnect authorized
    | response host fingerprint => on_response host fingerprint
    end
  else mret tt.

Fixpoint deliver_all (ss : list signal) : M world unit :=
  match ss with
  | [] => mret tt
  | s :: ss' => deliver s;; deliver_all ss'
  end.

(** ** Decision outcomes *)

Inductive outcome : Type :=
| Allow
| RejectNoFingerprint
| RejectMismatch
| RejectUnauthorized.

#[global] Instance outcome_eq_dec : EqDecision outcome.
Proof. solve_decision. Defined.

(** The outcome that an error stands for, by its identifier. *)
Definition outcome_of_id (id : string) : outcome :=
  if String.eqb id domain_notauthorized then RejectUnauthorized
  else if String.eqb id domain_invalid then RejectNoFingerprint
  else if String.eqb id domain_fingerprint_mismatch then RejectMismatch
  else Allow.



(** The errors that reached the caller one way or the other, in order. *)
Fixpoint reported (tr : list effect) : list RequestSSLError :=
  match tr with
  | [] => []
  | Callback err :: tr' => err :: reported tr'
  | EmitError err :: tr' => err :: reported tr'
  | Abort :: tr' => reported tr'
  end.

(** The outcome of an exchange, read off what it did: the first error it
    reported, or [Allow] when it reported none. *)
Definition verdict (tr : list effect) : outcome :=
  match reported tr with
  | err :: _ => outcome_of_id (id err)
  | [] => Allow
  end.

(** The pinning decision for an exchange [r] whose socket reports
    [authorized] and whose response comes from [host] with a certificate of
    fingerprint [observed]: the ['secureConnect'] listener runs, then the
    ['response'] listener. *)
Definition decision (g : globals) (r : request)
  (host : string) (authorized : bool) (observed : string) : outcome :=
  verdict (trace (snd (snd
    (deliver_all [secureConnect authorized; response host observed] (g, r))))).

(** The decision as the specification words it, from the result of the
    registry lookup: not found, found and different, found and equal. *)
Definition decision_spec (lookup : value)
  (authorized : bool) (observed : string) : outcome :=
  if negb authorized then RejectUnauthorized
  else match lookup with
       | Undefined => RejectNoFingerprint
       | Str expected =>
           if bool_decide (expected = observed) then Allow else RejectMismatch
       | Inherited _ => RejectMismatch
       end.

(** The decision of the listeners: an empty fingerprint counts as none. *)
Definition decision_falsy (lookup : value)
  (authorized : bool) (observed : string) : outcome :=
  if negb authorized then RejectUnauthorized
  else match lookup with
       | Undefined => RejectNoFingerprint
       | Str EmptyString => RejectNoFingerprint
       | Str expected =>
           if bool_decide (expected = observed) then Allow else RejectMismatch
       | Inherited _ => RejectMismatch
       end.

(** What one signal makes the listeners decide while the variable [url]
    holds [u]: the error of a rejection, if any. *)
Definition rejection (fps : gmap string string) (u : string) (s : signal)
  : option (completion RequestSSLError) :=
  match s with
  | secureConnect authorized =>
      if authorized then None
      else Some (createErrorMessage domain_notauthorized [u])
  | response host fingerprint =>
      let shouldMatch := getFingerprintForURL fps host in
      if negb (truthy_value shouldMatch) then
        Some (createErrorMessage domain_invalid [host])
      else if negb (bool_decide (shouldMatch = Str fingerprint)) then
        Some (createErrorMessage domain_fingerprint_mismatch [host])
      else None
  end.

(** The value of the variable [url] after a signal. *)
Definition url_after (u : string) (s : signal) : string :=
  match s with
  | secureConnect _ => u
  | response host _ => host
  end.

(** The errors of the rejections decided along a sequence of signals. *)
Fixpoint rejections (fps : gmap string string) (u : string) (ss : list signal)
  : list RequestSSLError :=
  match ss with
  | [] => []
  | s :: ss' =>
      match rejection fps u s with
      | Some (Return err) => err :: rejections fps (url_after u s) ss'
      | _ => rejections fps (url_after u s) ss'
      end
  end.

(** ** Notions used in the statements *)

(** A string without colon and without at-sign has neither a protocol nor
    an authority, so [url.parse] finds no host in it. *)
Definition plain (s : string) : bool :=
  JS.forallb_str (fun c => negb (Url.mem_char c ":@")) s.

(** Registrations made one after the other, each a URL (or domain) with a
    fingerprint text. *)
Fixpoint addFingerprints (regs : list (string * string)) : M globals unit :=
  match regs with
  | [] => mret tt
  | (url, fingerprint) :: regs' =>
      addFingerprint url fingerprint;; addFingerprints regs'
  end.

(** A URL or domain without user information.  [url.parse] decodes the
    user information that stands before an at-sign and throws [URIError]
    when an escape in it is malformed; the model of the parser returns for
    every input, and what is stated about registering or removing a URL is
    stated for inputs without user information, where the parser has
    nothing to decode. *)
Definition no_userinfo (url : string) : Prop :=
  Url.auth (Url.parse url) = None.

(** A registration that passes the argument checks and goes to [pattern]. *)
Definition registers (pattern : string) (reg : string * string) : Prop :=
  reg.1 <> EmptyString /\ reg.2 <> EmptyString /\ no_userinfo reg.1
  /\ getDomain reg.1 = pattern.

(** The three kinds of error that reach the caller. *)
Definition recognized (errorcode : string) : Prop :=
  In errorcode [domain_invalid; domain_notauthorized; domain_fingerprint_mismatch].

(** The effect of [wrappedCallback] on the request. *)
Definition latch (err : RequestSSLError) (r : request) : request :=
  if hasCallback r && originalCallback r then
    mk_request (transport_opts r) (transport_callback r) (isSSL r) (url r)
      (hasCallback r) false (trace r ++ [Callback err])
  else if negb (hasCallback r) then
    mk_request (transport_opts r) (transport_callback r) (isSSL r) (url r)
      true (originalCallback r) (trace r ++ [EmitError err])
  else r.

(** The request after a signal: the variable [url] follows the response,
    and a rejection aborts and goes through the wrapped callback. *)
Definition step_request (fps : gmap string string) (s : signal) (r : request)
  : request :=
  let u := url_after (url r) s in
  match rejection fps (url r) s with
  | Some (Return err) =>
      latch err
        (mk_request (transport_opts r) (transport_callback r) (isSSL r) u
           (hasCallback r) (originalCallback r) (trace r ++ [Abort]))
  | _ =>
      mk_request (transport_opts r) (transport_callback r) (isSSL r) u
        (hasCallback r) (originalCallback r) (trace r)
  end.

(** The module state after a signal: a response sets [Request._lastURL]. *)
Definition step_globals (s : signal) (g : globals) : globals :=
  match s with
  | secureConnect _ => g
  | response host _ =>
      set_lastURL
        (Some (if JS.starts_with "https:" host then host else "https://" +:+ host)) g
  end.

Ltac run_listener :=
  cbv [deliver on_secureConnect on_response step_request step_globals rejection
       lift mbind M_bind bind mret M_ret ret get log modify set_url
       set_Request_lastURL isSSL url fingerprints set_lastURL url_after
       transport_opts transport_callback hasCallback originalCallback trace
       fst snd negb].

Definition steps_request (fps : gmap string string) (ss : list signal)
  (r : request) : request :=
  fold_left (fun r s => step_request fps s r) ss r.

Definition steps_globals (ss : list signal) (g : globals) : globals :=
  fold_left (fun g s => step_globals s g) ss g.


(** The characters of a hostname that the parser accepts: those of the
    labels and the dot between them. *)
Definition host_char (c : ascii) : bool :=
  Url.is_hostname_char c || Ascii.eqb c ".".

(** A hostname whose labels all pass the parser's validation and which is
    neither empty nor longer than 255 code units. *)
Definition valid_hostname (h : string) : bool :=
  forallb Url.hostnamePartPattern (JS.split "." h)
  && (String.length h <=? Url.hostnameMaxLen)%nat
  && JS.truthy h.

(** The characters of an authority [host:port] without user information. *)
Definition authority_char (c : ascii) : bool :=
  host_char c || JS.is_digit c || Ascii.eqb c ":".

(** ** The rest of the interface *)

(** [Request.addFingerprintDirectory(dir)].  The directory is given as the
    listing that [fs.readdirSync(dir)] returns, each name with the contents
    of its file as [fs.readFileSync] reads it: the fingerprint of a file is
    its contents trimmed, and the files are registered in the order of the
    listing until one registration throws.  A directory that cannot be
    listed or an entry that cannot be read makes [fs] throw before anything
    of this is reached; the listing given here is one that was read. *)
Fixpoint addFingerprintDirectory (dir : list (string * string)) : M globals unit :=
  match dir with
  | [] => mret tt
  | (name, contents) :: dir' =>
      let fingerprint := JS.trim contents in
      addFingerprint name fingerprint;; addFingerprintDirectory dir'
  end.

(** A file of the directory that [addFingerprint] accepts: it has a name
    and its contents are not blank. *)
Definition loadable (file : string * string) : Prop :=
  file.1 <> EmptyString /\ JS.trim file.2 <> EmptyString.

(** The number of times the request was aborted. *)
Fixpoint aborts (tr : list effect) : nat :=
  match tr with
  | [] => 0
  | Abort :: tr' => S (aborts tr')
  | _ :: tr' => aborts tr'
  end.

(** A signal that the listeners let through: a socket that is authorized,
    or a response whose certificate fingerprint is the non-empty one that the
    lookup of its host returns. *)
Definition accepted (fps : gmap string string) (s : signal) : bool :=
  match s with
  | secureConnect authorized => authorized
  | response host fingerprint =>
      bool_decide (getFingerprintForURL fps host = Str fingerprint)
      && JS.truthy fingerprint
  end.

(** ** Properties *)

(** *** The model of [url.parse] on sample inputs *)

Example parse_bare_host : Url.host (Url.parse "a.b.example.com") = None.
Proof. reflexivity. Qed.

Example parse_full_url :
  Url.host (Url.parse "https://example.com:443/path") = Some "example.com:443".
Proof. reflexivity. Qed.

Example parse_host_port : Url.host (Url.parse "example.com:8443") = Some "8443".
Proof. reflexivity. Qed.

Example parse_protocol :
  Url.protocol (Url.parse "HTTPS://Example.COM/x") = Some "https:"
  /\ Url.host (Url.parse "HTTPS://Example.COM/x") = Some "example.com".
Proof. split; reflexivity. Qed.

Example parse_auth :
  Url.host (Url.parse "https://user:pw@example.com/a@b") = Some "example.com".
Proof. reflexivity. Qed.

(** *** Strings *)

Lemma truthy_true (s : string) : JS.truthy s = true <-> s <> EmptyString.
Proof. destruct s; simpl; split; congruence. Qed.

Lemma truthy_false (s : string) : JS.truthy s = false <-> s = EmptyString.
Proof. destruct s; simpl; split; congruence. Qed.

Lemma strip_prefix_app (p s : string) : JS.strip_prefix p (p +:+ s) = Some s.
Proof.
  induction p as [|a p IH]; simpl; [reflexivity|].
  now rewrite Ascii.eqb_refl.
Qed.

Lemma join_split (sep : ascii) (s : string) :
  JS.join (String sep EmptyString) (JS.split sep s) = s.
Proof.
  induction s as [|c s IH]; [reflexivity|].
  simpl. destruct (Ascii.eqb_spec c sep) as [->|Hne].
  - destruct (JS.split sep s) as [|t ts] eqn:E.
    + destruct s; simpl in E; [discriminate|].
      destruct (Ascii.eqb a sep); [discriminate|].
      destruct (JS.split sep s); discriminate.
    + change (JS.join (String sep "") ("" :: t :: ts))
        with (String sep (JS.join (String sep "") (t :: ts))).
      now rewrite IH.
  - destruct (JS.split sep s) as [|t ts] eqn:E.
    + destruct s; simpl in E; [discriminate|].
      destruct (Ascii.eqb a sep); [discriminate|].
      destruct (JS.split sep s); discriminate.
    + rewrite <- IH. destruct ts; reflexivity.
Qed.

(** *** The registry *)

Lemma obj_set_insert (key s : string) (own : gmap string string) :
  key <> "__proto__" -> obj_set key s own = <[key := s]> own.
Proof.
  intros H. unfold obj_set.
  destruct (String.eqb_spec key "__proto__"); [contradiction|reflexivity].
Qed.

Lemma obj_set_other (key s k : string) (own : gmap string string) :
  k <> key -> obj_set key s own !! k = own !! k.
Proof.
  intros H. unfold obj_set. destruct (String.eqb key "__proto__"); [reflexivity|].
  apply lookup_insert_ne. congruence.
Qed.

Lemma obj_get_own (own : gmap string string) (key s : string) :
  own !! key = Some s -> obj_get own key = Str s.
Proof. intros H. unfold obj_get. now rewrite H. Qed.

Lemma obj_get_absent (own : gmap string string) (key : string) :
  own !! key = None -> inherited key = false -> obj_get own key = Undefined.
Proof. intros H Hi. unfold obj_get. now rewrite H, Hi. Qed.

Lemma obj_get_inherited (own : gmap string string) (key : string) :
  own !! key = None -> inherited key = true -> obj_get own key = Inherited key.
Proof. intros H Hi. unfold obj_get. now rewrite H, Hi. Qed.

Lemma obj_get_Str (own : gmap string string) (key v : string) :
  obj_get own key = Str v -> own !! key = Some v.
Proof.
  unfold obj_get. destruct (own !! key); [congruence|].
  destruct (inherited key); discriminate.
Qed.

Lemma delete_obj_set (key s : string) (own : gmap string string) :
  own !! key = None -> delete key (obj_set key s own) = own.
Proof.
  intros H. unfold obj_set. destruct (String.eqb key "__proto__").
  - now apply delete_id.
  - now apply delete_insert_id.
Qed.

(** A wildcard key starts with an asterisk: it is no member of
    [Object.prototype]. *)
Lemma wildcard_not_inherited (domain : string) : inherited (wildcard domain) = false.
Proof. unfold wildcard. reflexivity. Qed.

Lemma addFingerprint_stores (g : globals) (url fingerprint : string) :
  url <> EmptyString -> fingerprint <> EmptyString ->
  addFingerprint url fingerprint g =
    (Return tt,
     set_fingerprints (obj_set (getDomain url) (strip_label fingerprint)) g).
Proof.
  intros Hu Hf. unfold addFingerprint.
  apply truthy_true in Hu. apply truthy_true in Hf.
  now rewrite Hu, Hf.
Qed.

Lemma lookup_exact (fps : gmap string string) (url v : string) :
  fps !! getDomain url = Some v -> v <> EmptyString ->
  getFingerprintForURL fps url = Str v.
Proof.
  intros H Hv. unfold getFingerprintForURL. rewrite (obj_get_own _ _ _ H).
  cbn [truthy_value]. apply truthy_true in Hv. now rewrite Hv.
Qed.

Lemma lookup_falls_back (fps : gmap string string) (url : string) :
  truthy_value (obj_get fps (getDomain url)) = false ->
  getFingerprintForURL fps url = obj_get fps (wildcard (getDomain url)).
Proof. intros H. unfold getFingerprintForURL. now rewrite H. Qed.


(** C1, on the code as it is: the wildcard key keeps every label of a host
    of several labels.  For [a.b.example.com] the key is
    [*.a.b.example.com] and not [*.b.example.com], for [example.com] it is
    [*.example.com] and not [*.com]; so an entry under the key that the
    claim names is not found. *)
Theorem C1_wildcard_keeps_leftmost_label :
  wildcard "a.b.example.com" = "*.a.b.example.com"
  /\ wildcard "example.com" = "*.example.com"
  /\ getFingerprintForURL {[ "*.b.example.com" := "AA:BB:CC" ]} "a.b.example.com"
     = Undefined
  /\ getFingerprintForURL {[ "*.com" := "AA:BB:CC" ]} "example.com" = Undefined.
Proof. repeat split; vm_compute; reflexivity. Qed.

(** C2, on the code as it is: after registering [*.example.com], the lookup
    of the subdomain [a.example.com] finds nothing and the lookup of the
    bare domain [example.com] returns the fingerprint. *)
Theorem C2_wildcard_matches_bare_domain_only :
  let g := snd (addFingerprint "*.example.com" "AA:BB:CC" initial_globals) in
  getFingerprintForURL (fingerprints g) "a.example.com" = Undefined
  /\ getFingerprintForURL (fingerprints g) "example.com" = Str "AA:BB:CC".
Proof. split; vm_compute; reflexivity. Qed.

(** *** Hosts that [url.parse] leaves alone *)

Lemma forallb_trimStart (p : ascii -> bool) (s : string) :
  JS.forallb_str p s = true -> JS.forallb_str p (JS.trimStart s) = true.
Proof.
  induction s as [|c s IH]; simpl; [easy|].
  intros [Hc Hs]%andb_prop. destruct (JS.is_space c); [auto|].
  simpl. now rewrite Hc, Hs.
Qed.

Lemma forallb_trimEnd (p : ascii -> bool) (s : string) :
  JS.forallb_str p s = true -> JS.forallb_str p (JS.trimEnd s) = true.
Proof.
  induction s as [|c s IH]; simpl; [easy|].
  intros [Hc Hs]%andb_prop. specialize (IH Hs).
  destruct (JS.trimEnd s) as [|d t].
  - destruct (JS.is_space c); simpl; [easy|]. now rewrite Hc.
  - simpl in *. now rewrite Hc, IH.
Qed.

Lemma forallb_trim (p : ascii -> bool) (s : string) :
  JS.forallb_str p s = true -> JS.forallb_str p (JS.trim s) = true.
Proof. intros H. now apply forallb_trimEnd, forallb_trimStart. Qed.

Lemma proto_run_plain (s : string) : plain s = true -> Url.proto_run s = None.
Proof.
  induction s as [|c s IH]; simpl; [easy|].
  intros [Hc Hs]%andb_prop. rewrite (IH Hs).
  destruct (Ascii.eqb c ":") eqn:E; [simpl in Hc; now rewrite E in Hc|].
  now destruct (Url.is_proto_char c).
Qed.

Lemma break_stops (stop : ascii -> bool) (s a b : string) :
  JS.break stop s = (a, b) ->
  b = EmptyString \/ exists c b', b = String c b' /\ stop c = true.
Proof.
  revert a b. induction s as [|c s IH]; simpl; intros a b H.
  - injection H as <- <-. now left.
  - destruct (stop c) eqn:E.
    + injection H as <- <-. right. eauto.
    + destruct (JS.break stop s) as [a' b'] eqn:E'.
      injection H as <- <-. eapply IH. reflexivity.
Qed.

Lemma forallb_break (p stop : ascii -> bool) (s a b : string) :
  JS.forallb_str p s = true -> JS.break stop s = (a, b) ->
  JS.forallb_str p b = true.
Proof.
  revert a b. induction s as [|c s IH]; simpl; intros a b Hp H.
  - now injection H as <- <-.
  - destruct (stop c).
    + now injection H as <- <-.
    + destruct (JS.break stop s) as [a' b'] eqn:E'.
      injection H as <- <-. apply andb_prop in Hp as [_ Hp]. eauto.
Qed.

Lemma forallb_strip_prefix (p : ascii -> bool) (pre s r : string) :
  JS.forallb_str p s = true -> JS.strip_prefix pre s = Some r ->
  JS.forallb_str p r = true.
Proof.
  revert s. induction pre as [|a pre IH]; simpl; intros s Hp H.
  - now injection H as <-.
  - destruct s as [|b s]; [discriminate|].
    destruct (Ascii.eqb a b); [|discriminate].
    apply andb_prop in Hp as [_ Hp]. eauto.
Qed.

Lemma slashes_auth_pattern_plain (s : string) :
  plain s = true -> Url.slashes_auth_pattern s = false.
Proof.
  intros Hp. unfold Url.slashes_auth_pattern.
  destruct (JS.strip_prefix "//" s) as [r|] eqn:Er; [|reflexivity].
  pose proof (forallb_strip_prefix _ _ _ _ Hp Er) as Hr.
  destruct (JS.break (fun c => Url.mem_char c "@/") r) as [a b] eqn:Eb.
  pose proof (forallb_break _ _ _ _ _ Hr Eb) as Hb.
  destruct b as [|c [|d b]]; try apply andb_false_r.
  simpl in Hb. apply andb_prop in Hb as [Hc _].
  destruct (Ascii.eqb c "@") eqn:E; [|apply andb_false_r].
  simpl in Hc. now rewrite orb_true_r in Hc.
Qed.

Lemma parse_plain (s : string) :
  plain s = true ->
  Url.host (Url.parse s) = None /\ Url.protocol (Url.parse s) = None.
Proof.
  intros Hp. apply forallb_trim in Hp. fold (plain (JS.trim s)) in Hp.
  unfold Url.parse, Url.protocolPattern.
  rewrite (proto_run_plain _ Hp), (slashes_auth_pattern_plain _ Hp).
  simpl. split; reflexivity.
Qed.

Lemma plain_no_userinfo (s : string) : plain s = true -> no_userinfo s.
Proof.
  intros Hp. apply forallb_trim in Hp. fold (plain (JS.trim s)) in Hp.
  unfold no_userinfo, Url.parse, Url.protocolPattern.
  rewrite (proto_run_plain _ Hp), (slashes_auth_pattern_plain _ Hp).
  reflexivity.
Qed.

Lemma getDomain_plain (s : string) : plain s = true -> getDomain s = s.
Proof. intros Hp. unfold getDomain. now rewrite (proj1 (parse_plain s Hp)). Qed.

Lemma split_nonempty (sep : ascii) (s : string) : JS.split sep s <> [].
Proof.
  destruct s as [|c s]; simpl; [easy|].
  destruct (Ascii.eqb c sep); [easy|]. now destruct (JS.split sep s).
Qed.

(** The wildcard key of a plain host as the code computes it: the whole
    host after [*.] when it has several labels, nothing after [*.] when it
    has one. *)
Lemma wildcard_plain (d : string) :
  plain d = true ->
  wildcard d =
    if (1 <? length (JS.split "." d))%nat then "*." +:+ d else "*.".
Proof.
  intros Hp. unfold wildcard. rewrite (proj1 (parse_plain d Hp)). simpl JS.or_else.
  destruct (1 <? length (JS.split "." d))%nat eqn:E.
  - unfold JS.splice. simpl fst. rewrite drop_0. now rewrite join_split.
  - apply Nat.ltb_ge in E. pose proof (split_nonempty "." d) as Hne.
    destruct (JS.split "." d) as [|t [|t' ts]]; simpl in *; [easy|reflexivity|lia].
Qed.

(** *** Registration *)

Lemma addFingerprints_app (regs1 regs2 : list (string * string)) (g : globals) :
  addFingerprints (regs1 ++ regs2) g =
    match addFingerprints regs1 g with
    | (Return _, g') => addFingerprints regs2 g'
    | (Throw e, g') => (Throw e, g')
    end.
Proof.
  revert g. induction regs1 as [|[u f] regs1 IH]; intros g; [reflexivity|].
  simpl. unfold mbind, M_bind, bind.
  destruct (addFingerprint u f g) as [[[]|e] g1]; [apply IH|reflexivity].
Qed.

Lemma addFingerprints_frame (pattern : string) (regs : list (string * string))
  (g : globals) :
  Forall (registers pattern) regs ->
  exists g', addFingerprints regs g = (Return tt, g')
    /\ secureProtocol g' = secureProtocol g
    /\ _lastURL g' = _lastURL g
    /\ forall k, k <> pattern -> fingerprints g' !! k = fingerprints g !! k.
Proof.
  intros H. revert g. induction H as [|[u f] regs (Hu & Hf & _ & Hp) _ IH]; intros g.
  - exists g. now repeat split.
  - simpl in Hu, Hf, Hp. simpl. unfold mbind, M_bind, bind.
    rewrite (addFingerprint_stores g u f Hu Hf).
    destruct (IH (set_fingerprints (obj_set (getDomain u) (strip_label f)) g))
      as (g' & -> & Hs & Hl & Hk).
    exists g'. repeat split; [exact Hs|exact Hl|].
    intros k Hne. rewrite (Hk k Hne). cbn [fingerprints set_fingerprints].
    apply obj_set_other. congruence.
Qed.

(** C7 (amended): after any sequence of registrations for one pattern other
    than [__proto__], made with URLs or domains without user information,
    the registry maps the pattern to the value registered last (the text
    without its label) and leaves every other pattern as it was; when that
    value is not empty, the lookup of any URL or host without user
    information that normalizes to the pattern returns it, and so does the
    lookup of the pattern itself when the pattern is a plain domain, one
    without colon and without at-sign. *)
Theorem C7_last_registration_wins (pattern : string)
  (regs : list (string * string)) (url fingerprint : string) (g : globals) :
  pattern <> "__proto__" ->
  Forall (registers pattern) (regs ++ [(url, fingerprint)]) ->
  exists g',
    addFingerprints (regs ++ [(url, fingerprint)]) g = (Return tt, g')
    /\ fingerprints g' !! pattern = Some (strip_label fingerprint)
    /\ (forall k, k <> pattern -> fingerprints g' !! k = fingerprints g !! k)
    /\ (strip_label fingerprint <> EmptyString ->
        (forall host, no_userinfo host -> getDomain host = pattern ->
           getFingerprintForURL (fingerprints g') host
             = Str (strip_label fingerprint))
        /\ (plain pattern = true ->
            getFingerprintForURL (fingerprints g') pattern
              = Str (strip_label fingerprint))).
Proof.
  intros Hproto H. apply Forall_app in H as [Hregs Hlast].
  apply Forall_cons in Hlast as [(Hu & Hf & _ & Hp) _]. simpl in Hu, Hf, Hp.
  destruct (addFingerprints_frame pattern regs g Hregs) as (g1 & E1 & _ & _ & Hk).
  exists (set_fingerprints
            (fun fps => <[pattern := strip_label fingerprint]> fps) g1).
  rewrite addFingerprints_app, E1. simpl.
  unfold mbind, M_bind, bind. rewrite (addFingerprint_stores g1 url fingerprint Hu Hf).
  rewrite Hp. unfold set_fingerprints at 1. rewrite (obj_set_insert _ _ _ Hproto).
  split; [reflexivity|]. cbn [fingerprints set_fingerprints].
  assert (Hl : <[pattern := strip_label fingerprint]> (fingerprints g1) !! pattern
               = Some (strip_label fingerprint)) by apply lookup_insert_eq.
  split; [exact Hl|]. split.
  - intros k Hne. rewrite lookup_insert_ne by congruence. now apply Hk.
  - intros Hv.
    assert (Hhost : forall host, no_userinfo host -> getDomain host = pattern ->
      getFingerprintForURL (<[pattern := strip_label fingerprint]> (fingerprints g1)) host
        = Str (strip_label fingerprint)).
    { intros host _ Hh. apply lookup_exact; [now rewrite Hh|exact Hv]. }
    split; [exact Hhost|]. intros Hplain.
    apply Hhost; [now apply plain_no_userinfo|].
    unfold getDomain. now rewrite (proj1 (parse_plain pattern Hplain)).
Qed.

Lemma C7_last_registration_wins_witness :
  exists g',
    addFingerprints ([("example.com", "AA:BB:CC")] ++ [("https://example.com/", "DD:EE:FF")])
      initial_globals = (Return tt, g')
    /\ fingerprints g' !! "example.com" = Some "DD:EE:FF"
    /\ getFingerprintForURL (fingerprints g') "https://example.com/other" = Str "DD:EE:FF"
    /\ getFingerprintForURL (fingerprints g') "example.com" = Str "DD:EE:FF".
Proof.
  destruct (C7_last_registration_wins "example.com"
              [("example.com", "AA:BB:CC")] "https://example.com/" "DD:EE:FF"
              initial_globals) as (g' & E & Hl & _ & Hlook).
  - discriminate.
  - repeat constructor; simpl; discriminate.
  - exists g'. split; [exact E|]. split; [exact Hl|].
    destruct Hlook as [Hhost Hplain]; [discriminate|].
    split; [apply Hhost; vm_compute; reflexivity|apply Hplain; vm_compute; reflexivity].
Defined.

(** C7 as stated fails when the value registered last is empty, which the
    text made of the label alone leaves behind: the registry holds the
    empty value and the lookup of the host does not return it. *)
Lemma C7_counterexample :
  let g := snd (addFingerprints
                  [("example.com", "AA:BB:CC"); ("example.com", "SHA1 Fingerprint=")]
                  initial_globals) in
  fingerprints g !! "example.com" = Some ""
  /\ getFingerprintForURL (fingerprints g) "example.com" = Undefined
  /\ getFingerprintForURL (fingerprints g) "example.com" <> Str "".
Proof. repeat split; vm_compute; (reflexivity || discriminate). Qed.



(** C9: a registration with an empty domain or URL, or with an empty
    fingerprint text, throws and leaves the module state, the registry
    included, as it was. *)
Theorem C9_registration_rejects_empty (g : globals) (url fingerprint : string) :
  url = EmptyString \/ fingerprint = EmptyString ->
  exists e, addFingerprint url fingerprint g = (Throw e, g)
    /\ (url = EmptyString -> error_message e = "missing name")
    /\ (url <> EmptyString -> error_message e = "missing fingerprint").
Proof.
  intros H. unfold addFingerprint.
  destruct url as [|c url]; simpl.
  - eexists. split; [reflexivity|]. split; [reflexivity|congruence].
  - destruct H as [H | ->]; [discriminate|]. simpl.
    eexists. split; [reflexivity|]. split; [discriminate|reflexivity].
Qed.

Lemma C9_registration_rejects_empty_witness :
  exists e, addFingerprint "example.com" "" initial_globals = (Throw e, initial_globals).
Proof.
  destruct (C9_registration_rejects_empty initial_globals "example.com" "")
    as (e & E & _); [now right|].
  exists e. exact E.
Defined.

(** *** The error catalogue *)

Lemma table_lookup_ERRORS (errorcode : string) :
  match table_lookup ERRORS errorcode with
  | Some entry => recognized errorcode /\ argcount entry = 1
  | None => ~ recognized errorcode
  end.
Proof.
  unfold recognized, ERRORS, table_lookup.
  destruct (String.eqb_spec domain_invalid errorcode) as [<-|H1];
    [split; [simpl; auto|reflexivity]|].
  destruct (String.eqb_spec domain_notauthorized errorcode) as [<-|H2];
    [split; [simpl; auto|reflexivity]|].
  destruct (String.eqb_spec domain_fingerprint_mismatch errorcode) as [<-|H3];
    [split; [simpl; auto|reflexivity]|].
  simpl. intuition congruence.
Qed.

Lemma ERRORS_get_recognized (errorcode : string) :
  recognized errorcode ->
  exists entry,
    table_lookup ERRORS errorcode = Some entry /\ argcount entry = 1
    /\ ERRORS_get errorcode =
         Some {| view_message := Some (entry_message entry);
                 view_argcount := Some 1 |}.
Proof.
  intros Hr. pose proof (table_lookup_ERRORS errorcode) as H. unfold ERRORS_get.
  destruct (table_lookup ERRORS errorcode) as [entry|]; [|contradiction].
  destruct H as [_ Hc]. exists entry. now rewrite Hc.
Qed.


Lemma starts_with_refl (p : string) : JS.starts_with p p = true.
Proof.
  unfold JS.starts_with. induction p as [|a p IH]; cbn [JS.strip_prefix];
    [reflexivity|].
  now rewrite Ascii.eqb_refl.
Qed.

(** X20: apart from the inherited names, [createErrorMessage] throws a plain
    [Error] for every error code that is not one of the three kinds, and
    for a kind that is not given exactly one argument, with a message that
    starts with the text of the internal failure for that case; a kind with
    one argument gives the error with the formatted message. *)
Theorem createErrorMessage_cases (errorcode : string) (args : list string) :
  (recognized errorcode -> length args = 1 ->
   exists entry,
     table_lookup ERRORS errorcode = Some entry
     /\ createErrorMessage errorcode args =
          Return {| id := errorcode;
                    name := "RequestSSLError";
                    message := Some (JS.format (entry_message entry) args) |})
  /\ (recognized errorcode -> length args <> 1 ->
      exists e : Error,
        createErrorMessage errorcode args = Throw e
        /\ JS.starts_with (internal_failure errorcode "invalid args")
             (error_message e) = true)
  /\ (~ recognized errorcode -> inherited errorcode = false ->
      exists e : Error,
        createErrorMessage errorcode args = Throw e
        /\ JS.starts_with (internal_failure errorcode "invalid error code")
             (error_message e) = true).
Proof.
  unfold createErrorMessage. split; [|split].
  - intros Hr Hl. destruct (ERRORS_get_recognized errorcode Hr) as (entry & Ht & _ & ->).
    exists entry. split; [exact Ht|]. cbn [view_argcount view_message argcount_differs].
    rewrite Hl. reflexivity.
  - intros Hr Hl. destruct (ERRORS_get_recognized errorcode Hr) as (entry & _ & _ & ->).
    cbn [view_argcount argcount_differs].
    destruct (Nat.eqb_spec 1 (length args)) as [E|E]; [congruence|].
    eexists. split; [reflexivity|apply starts_with_refl].
  - intros Hn Hi. pose proof (table_lookup_ERRORS errorcode) as H. unfold ERRORS_get.
    destruct (table_lookup ERRORS errorcode) as [entry|].
    + destruct H as [Hr _]. contradiction.
    + rewrite Hi. eexists. split; [reflexivity|apply starts_with_refl].
Qed.

Lemma createErrorMessage_cases_witness :
  createErrorMessage domain_invalid ["example.com"] =
    Return {| id := domain_invalid;
              name := "RequestSSLError";
              message := Some "SSL authorization failed. URL: example.com does not have a valid fingerprint which can be used to verify the SSL certificate." |}
  /\ (exists e : Error, createErrorMessage domain_invalid [] = Throw e)
  /\ (exists e : Error, createErrorMessage "request.ssl.unknown" ["example.com"] = Throw e).
Proof.
  split; [|split].
  - destruct (proj1 (createErrorMessage_cases domain_invalid ["example.com"]))
      as (entry & Hentry & E).
    + left. reflexivity.
    + reflexivity.
    + rewrite E. injection Hentry as <-. reflexivity.
  - destruct (proj1 (proj2 (createErrorMessage_cases domain_invalid [])))
      as (e & E & _); [left; reflexivity|discriminate|].
    exists e. exact E.
  - destruct (proj2 (proj2 (createErrorMessage_cases "request.ssl.unknown"
                              ["example.com"]))) as (e & E & _);
      [intros [H|[H|[H|[]]]]; discriminate H|reflexivity|].
    exists e. exact E.
Defined.

Lemma createErrorMessage_one (errorcode u : string) :
  recognized errorcode ->
  exists err, createErrorMessage errorcode [u] = Return err
    /\ id err = errorcode.
Proof.
  intros Hr. unfold createErrorMessage.
  destruct (ERRORS_get_recognized errorcode Hr) as (entry & _ & _ & ->).
  cbn. eauto.
Qed.

(** *** The listeners, one signal at a time *)

Lemma wrappedCallback_latch (err : RequestSSLError) (g : globals) (r : request) :
  wrappedCallback err (g, r) = (Return tt, (g, latch err r)).
Proof.
  unfold wrappedCallback, latch. destruct r as [o tc ssl u [] [] tr]; reflexivity.
Qed.

Lemma recognized_invalid : recognized domain_invalid.
Proof. unfold recognized; simpl; auto. Qed.

Lemma recognized_notauthorized : recognized domain_notauthorized.
Proof. unfold recognized; simpl; auto. Qed.

Lemma recognized_mismatch : recognized domain_fingerprint_mismatch.
Proof. unfold recognized; simpl; auto. Qed.

Lemma deliver_step (s : signal) (g : globals) (r : request) :
  isSSL r = true ->
  deliver s (g, r) =
    (Return tt, (step_globals s g, step_request (fingerprints g) s r)).
Proof.
  intros Hssl. destruct r as [o tc ssl u hc oc tr]. simpl in Hssl. subst ssl.
  destruct g as [fps sp last].
  destruct s as [[]|host fp].
  - reflexivity.
  - destruct (createErrorMessage_one domain_notauthorized u recognized_notauthorized)
      as (err & E & _).
    run_listener. rewrite E. rewrite wrappedCallback_latch. reflexivity.
  - run_listener.
    destruct (truthy_value (getFingerprintForURL fps host)).
    + destruct (bool_decide (getFingerprintForURL fps host = Str fp));
        [reflexivity|].
      destruct (createErrorMessage_one domain_fingerprint_mismatch host
                  recognized_mismatch) as (err & E & _).
      rewrite E. rewrite wrappedCallback_latch. reflexivity.
    + destruct (createErrorMessage_one domain_invalid host recognized_invalid)
        as (err & E & _).
      rewrite E. rewrite wrappedCallback_latch. reflexivity.
Qed.

Lemma step_request_isSSL (fps : gmap string string) (s : signal) (r : request) :
  isSSL (step_request fps s r) = isSSL r.
Proof.
  unfold step_request, latch.
  destruct (rejection fps (url r) s) as [[err|e]|]; cbn; try reflexivity.
  destruct (hasCallback r), (originalCallback r); reflexivity.
Qed.

Lemma step_request_url (fps : gmap string string) (s : signal) (r : request) :
  url (step_request fps s r) = url_after (url r) s.
Proof.
  unfold step_request, latch.
  destruct (rejection fps (url r) s) as [[err|e]|]; cbn; try reflexivity.
  destruct (hasCallback r), (originalCallback r); reflexivity.
Qed.

Lemma step_globals_fingerprints (s : signal) (g : globals) :
  fingerprints (step_globals s g) = fingerprints g.
Proof. destruct s; reflexivity. Qed.

(** *** A whole exchange *)

Lemma deliver_all_steps (ss : list signal) (g : globals) (r : request) :
  isSSL r = true ->
  deliver_all ss (g, r) =
    (Return tt, (steps_globals ss g, steps_request (fingerprints g) ss r)).
Proof.
  revert g r. induction ss as [|s ss IH]; intros g r Hssl; [reflexivity|].
  cbn [deliver_all]. unfold mbind, M_bind, bind.
  rewrite (deliver_step s g r Hssl).
  rewrite IH by now rewrite step_request_isSSL.
  now rewrite step_globals_fingerprints.
Qed.





(** *** The request function *)

Lemma parse_empty_protocol : Url.protocol (Url.parse "") = None.
Proof. reflexivity. Qed.

Lemma Request_https (o : options) (callback : bool) (g : globals) :
  Url.protocol (Url.parse (opt_url o)) = Some "https:" ->
  Request o callback g =
    (Return
       (mk_request
          {| opt_url := opt_url o;
             agentOptions :=
               Some (<["secureProtocol" := secureProtocol g]>
                       (default ∅ (agentOptions o))) |}
          callback true (opt_url o) callback callback []),
     set_lastURL (Some (opt_url o)) g).
Proof.
  intros H. unfold Request.
  destruct (opt_url o) as [|c u] eqn:E.
  - rewrite parse_empty_protocol in H. discriminate.
  - cbn [JS.truthy negb]. rewrite H.
    rewrite bool_decide_eq_true_2 by reflexivity.
    cbv [mbind M_bind bind get modify mret M_ret ret].
    now rewrite andb_diag.
Qed.

Lemma Request_not_https (o : options) (callback : bool) (g : globals) :
  opt_url o <> EmptyString ->
  Url.protocol (Url.parse (opt_url o)) <> Some "https:" ->
  Request o callback g =
    (Return (mk_request o callback false (opt_url o) false false []), g).
Proof.
  intros Hu H. unfold Request. apply truthy_true in Hu. rewrite Hu.
  cbn [negb]. rewrite bool_decide_eq_false_2 by exact H. reflexivity.
Qed.

(** C3 (amended): for every HTTPS exchange, host, authorization flag and
    observed fingerprint, the listeners decide [RejectUnauthorized] when the
    flag is false, whatever the fingerprints; otherwise
    [RejectNoFingerprint] when the lookup for the host finds nothing or finds
    an empty fingerprint; otherwise [RejectMismatch] when the fingerprint
    found is not exactly the observed one, and [Allow], with no error and no
    abort, when it is. *)
Theorem C3_pinning_decision (o : options) (callback : bool) (g : globals)
  (host : string) (authorized : bool) (observed : string) :
  Url.protocol (Url.parse (opt_url o)) = Some "https:" ->
  exists r g1,
    Request o callback g = (Return r, g1)
    /\ decision g1 r host authorized observed =
         decision_falsy (getFingerprintForURL (fingerprints g) host)
           authorized observed
    /\ (decision g1 r host authorized observed = Allow ->
        trace (snd (snd (deliver_all
                 [secureConnect authorized; response host observed] (g1, r)))) = []).
Proof.
  intros H. rewrite (Request_https o callback g H). eexists _, _.
  split; [reflexivity|].
  unfold decision. rewrite deliver_all_steps by reflexivity.
  cbn [snd fingerprints set_lastURL steps_request fold_left].
  destruct (createErrorMessage_one domain_notauthorized (opt_url o)
              recognized_notauthorized) as (e1 & E1 & I1).
  destruct (createErrorMessage_one domain_invalid host recognized_invalid)
    as (e2 & E2 & I2).
  destruct (createErrorMessage_one domain_fingerprint_mismatch host
              recognized_mismatch) as (e3 & E3 & I3).
  unfold step_request, rejection, decision_falsy.
  cbn [url url_after hasCallback originalCallback trace transport_opts
       transport_callback isSSL].
  rewrite E1, E2, E3.
  destruct (getFingerprintForURL (fingerprints g) host) as [|[|c expected]|inh];
    cbn [truthy_value JS.truthy negb].
  - destruct authorized, callback; cbn; rewrite ?I1, ?I2; split; easy.
  - destruct authorized, callback; cbn; rewrite ?I1, ?I2; split; easy.
  - destruct (decide (String c expected = observed)) as [->|Hne].
    + rewrite !bool_decide_eq_true_2 by reflexivity.
      destruct authorized, callback; cbn; rewrite ?I1; split; easy.
    + rewrite (bool_decide_eq_false_2 (String c expected = observed)) by exact Hne.
      rewrite bool_decide_eq_false_2 by congruence.
      destruct authorized, callback; cbn; rewrite ?I1, ?I3; split; easy.
  - rewrite bool_decide_eq_false_2 by discriminate.
    destruct authorized, callback; cbn; rewrite ?I1, ?I3; split; easy.
Qed.

Lemma C3_pinning_decision_witness :
  let g := snd (addFingerprint "example.com" "AA11" initial_globals) in
  exists r g1,
    Request {| opt_url := "https://example.com/"; agentOptions := None |} true g
      = (Return r, g1)
    /\ decision g1 r "example.com" true "BB22" = RejectMismatch
    /\ decision g1 r "example.com" true "AA11" = Allow
    /\ decision g1 r "example.com" false "AA11" = RejectUnauthorized
    /\ decision g1 r "other.example.org" true "AA11" = RejectNoFingerprint.
Proof.
  intros g.
  pose (o := {| opt_url := "https://example.com/"; agentOptions := None |}).
  destruct (C3_pinning_decision o true g "example.com" true "BB22" eq_refl)
    as (r & g1 & E & D1 & _).
  destruct (C3_pinning_decision o true g "example.com" true "AA11" eq_refl)
    as (r2 & g2 & E2 & D2 & _).
  destruct (C3_pinning_decision o true g "example.com" false "AA11" eq_refl)
    as (r3 & g3 & E3 & D3 & _).
  destruct (C3_pinning_decision o true g "other.example.org" true "AA11" eq_refl)
    as (r4 & g4 & E4 & D4 & _).
  rewrite E in E2, E3, E4.
  injection E2 as <- <-. injection E3 as <- <-. injection E4 as <- <-.
  exists r, g1. split; [exact E|].
  rewrite D1, D2, D3, D4. repeat split; vm_compute; reflexivity.
Defined.

(** C3 as stated fails where the lookup yields an empty fingerprint: the
    wording compares it with the observed fingerprint and reports a
    mismatch, the listener takes it for a missing fingerprint.  The same
    happens with an empty entry under the host itself: the registry has an
    entry for the host and the decision is still [RejectNoFingerprint]. *)
Lemma C3_counterexample :
  let o := {| opt_url := "https://example.com/"; agentOptions := None |} in
  let g := snd (addFingerprint "*.example.com" "SHA1 Fingerprint=" initial_globals) in
  let g' := snd (addFingerprint "example.com" "SHA1 Fingerprint=" initial_globals) in
  match Request o true g, Request o true g' with
  | (Return r, g1), (Return r', g1') =>
      getFingerprintForURL (fingerprints g1) "example.com" = Str ""
      /\ decision g1 r "example.com" true "AA:BB:CC" = RejectNoFingerprint
      /\ decision g1 r "example.com" true "AA:BB:CC"
         <> decision_spec (getFingerprintForURL (fingerprints g1) "example.com")
              true "AA:BB:CC"
      /\ fingerprints g1' !! "example.com" = Some ""
      /\ decision g1' r' "example.com" true "AA:BB:CC" = RejectNoFingerprint
  | _, _ => False
  end.
Proof. vm_compute. repeat split; (reflexivity || discriminate). Qed.



(** *** Requests that are not HTTPS *)

Lemma deliver_all_unpinned (ss : list signal) (g : globals) (r : request) :
  isSSL r = false -> deliver_all ss (g, r) = (Return tt, (g, r)).
Proof.
  intros H. induction ss as [|s ss IH]; [reflexivity|].
  cbn [deliver_all]. unfold mbind at 1, M_bind, bind.
  assert (E : deliver s (g, r) = (Return tt, (g, r))).
  { unfold deliver. cbv [mbind M_bind bind get]. now rewrite H. }
  now rewrite E.
Qed.

(** C10: a request whose URL does not have the protocol [https:] goes to
    the transport with the caller's options and callback untouched, leaves
    the module state as it was, and carries no listener: whatever signals
    arrive and whatever the registry holds, nothing is looked up, nothing
    is aborted and no error is reported. *)
Theorem C10_no_pinning_without_https (o : options) (callback : bool)
  (g : globals) :
  opt_url o <> EmptyString ->
  Url.protocol (Url.parse (opt_url o)) <> Some "https:" ->
  exists r,
    Request o callback g = (Return r, g)
    /\ transport_opts r = o
    /\ transport_callback r = callback
    /\ isSSL r = false
    /\ trace r = []
    /\ forall (ss : list signal) (g' : globals),
         deliver_all ss (g', r) = (Return tt, (g', r)).
Proof.
  intros Hu H. rewrite (Request_not_https o callback g Hu H).
  eexists. split; [reflexivity|]. repeat split.
  intros ss g'. now apply deliver_all_unpinned.
Qed.

Lemma C10_no_pinning_without_https_witness :
  let o := {| opt_url := "http://example.com/"; agentOptions := None |} in
  exists r,
    Request o true initial_globals = (Return r, initial_globals)
    /\ transport_opts r = o
    /\ deliver_all [secureConnect false; response "example.com" "BB22"]
         (initial_globals, r) = (Return tt, (initial_globals, r)).
Proof.
  intros o.
  destruct (C10_no_pinning_without_https o true initial_globals)
    as (r & E & Ho & _ & _ & _ & D); [discriminate|vm_compute; discriminate|].
  exists r. split; [exact E|]. split; [exact Ho|]. apply D.
Defined.

(** *** The registry key of a full URL *)

Lemma forallb_str_impl (p q : ascii -> bool) (s : string) :
  (forall c, p c = true -> q c = true) ->
  JS.forallb_str p s = true -> JS.forallb_str q s = true.
Proof.
  intros Hpq. induction s as [|c s IH]; simpl; [easy|].
  intros [Hc Hs]%andb_prop. now rewrite (Hpq c Hc), IH.
Qed.

Lemma forallb_str_app (p : ascii -> bool) (a b : string) :
  JS.forallb_str p (a +:+ b) = JS.forallb_str p a && JS.forallb_str p b.
Proof.
  induction a as [|c a IH]; simpl; [reflexivity|].
  now rewrite IH, andb_assoc.
Qed.

Lemma trimStart_cons (c : ascii) (s : string) :
  JS.is_space c = false -> JS.trimStart (String c s) = String c s.
Proof. intros H. simpl. now rewrite H. Qed.

Lemma trimStart_app (pre s : string) :
  JS.forallb_str (fun c => negb (JS.is_space c)) pre = true ->
  pre <> EmptyString ->
  JS.trimStart (pre +:+ s) = pre +:+ s.
Proof.
  destruct pre as [|c pre]; [easy|]. cbn [JS.forallb_str].
  intros [Hc _]%andb_prop _. apply negb_true_iff in Hc.
  now apply trimStart_cons.
Qed.

Lemma trimEnd_cons (c : ascii) (s : string) :
  JS.is_space c = false -> JS.trimEnd (String c s) = String c (JS.trimEnd s).
Proof. intros H. simpl. destruct (JS.trimEnd s); now rewrite ?H. Qed.

Lemma trimEnd_app (a s : string) :
  JS.forallb_str (fun c => negb (JS.is_space c)) a = true ->
  JS.trimEnd (a +:+ s) = a +:+ JS.trimEnd s.
Proof.
  induction a as [|c a IH]; [reflexivity|].
  cbn [JS.forallb_str]. intros [Hc Ha]%andb_prop.
  apply negb_true_iff in Hc.
  change (String c a +:+ s) with (String c (a +:+ s)).
  rewrite trimEnd_cons by exact Hc. now rewrite IH.
Qed.

Lemma break_app (stop : ascii -> bool) (a : string) (c : ascii) (b : string) :
  JS.forallb_str (fun c => negb (stop c)) a = true -> stop c = true ->
  JS.break stop (a +:+ String c b) = (a, String c b).
Proof.
  intros Ha Hc. induction a as [|d a IH]; simpl.
  - now rewrite Hc.
  - simpl in Ha. apply andb_prop in Ha as [Hd Ha].
    apply negb_true_iff in Hd. now rewrite Hd, IH.
Qed.

Lemma break_last_absent (c : ascii) (s : string) :
  JS.forallb_str (fun d => negb (Ascii.eqb d c)) s = true ->
  JS.break_last c s = None.
Proof.
  induction s as [|d s IH]; simpl; [easy|].
  intros [Hd Hs]%andb_prop. apply negb_true_iff in Hd. now rewrite IH, Hd.
Qed.

Lemma break_last_app (c : ascii) (a b : string) :
  JS.forallb_str (fun d => negb (Ascii.eqb d c)) b = true ->
  JS.break_last c (a +:+ String c b) = Some (a, b).
Proof.
  intros Hb. induction a as [|d a IH]; simpl.
  - now rewrite (break_last_absent c b Hb), Ascii.eqb_refl.
  - now rewrite IH.
Qed.

Lemma truthy_app (a : string) (c : ascii) (b : string) :
  JS.truthy (a +:+ String c b) = true.
Proof. now destruct a. Qed.

Lemma host_char_classes (c : ascii) :
  host_char c = true ->
  JS.is_space c = false
  /\ Url.mem_char c Url.hostEndingChars = false
  /\ Url.mem_char c Url.nonHostChars = false
  /\ Ascii.eqb c "@" = false
  /\ Ascii.eqb c ":" = false
  /\ Ascii.eqb c "[" = false.
Proof.
  destruct c as [[] [] [] [] [] [] [] []]; vm_compute; intros H;
    first [discriminate H | repeat split].
Qed.

Lemma digit_classes (c : ascii) :
  JS.is_digit c = true ->
  JS.is_space c = false
  /\ Url.mem_char c Url.hostEndingChars = false
  /\ Url.mem_char c Url.nonHostChars = false
  /\ Ascii.eqb c "@" = false
  /\ Ascii.eqb c ":" = false.
Proof.
  destruct c as [[] [] [] [] [] [] [] []]; vm_compute; intros H;
    first [discriminate H | repeat split].
Qed.

Lemma hostnamePartPattern_tail (c : ascii) (t : string) :
  Url.hostnamePartPattern (String c t) = true ->
  Url.is_hostname_char c = true /\ Url.hostnamePartPattern t = true.
Proof.
  unfold Url.hostnamePartPattern. cbn [JS.forallb_str String.length].
  intros [[Hc Ht]%andb_prop Hl]%andb_prop. apply Nat.leb_le in Hl.
  split; [exact Hc|]. rewrite Ht. apply Nat.leb_le. lia.
Qed.

Lemma valid_parts_host_chars (h : string) :
  forallb Url.hostnamePartPattern (JS.split "." h) = true ->
  JS.forallb_str host_char h = true.
Proof.
  induction h as [|c h IH]; [easy|].
  cbn [JS.split JS.forallb_str]. unfold host_char at 1.
  destruct (Ascii.eqb c ".") eqn:E.
  - cbn [forallb]. intros [_ H]%andb_prop. rewrite orb_true_r. now apply IH.
  - pose proof (split_nonempty "." h) as Hne.
    destruct (JS.split "." h) as [|t ts]; [contradiction|].
    cbn [forallb] in IH |- *. intros [Hp Hts]%andb_prop.
    apply hostnamePartPattern_tail in Hp as [Hc Ht].
    rewrite Hc. cbn [orb andb]. apply IH. now rewrite Ht, Hts.
Qed.

Lemma validate_parts_valid (validParts hostparts : list string) :
  forallb Url.hostnamePartPattern hostparts = true ->
  Url.validate_parts validParts hostparts = None.
Proof.
  revert validParts. induction hostparts as [|p ps IH]; intros vp; [reflexivity|].
  cbn [forallb Url.validate_parts]. intros [Hp Hps]%andb_prop. rewrite Hp.
  destruct (negb (JS.truthy p)); now apply IH.
Qed.

Lemma authority_char_classes (c : ascii) :
  authority_char c = true ->
  JS.is_space c = false
  /\ Url.mem_char c Url.hostEndingChars = false
  /\ Url.mem_char c Url.nonHostChars = false
  /\ Ascii.eqb c "@" = false.
Proof.
  destruct c as [[] [] [] [] [] [] [] []]; vm_compute; intros H;
    first [discriminate H | repeat split].
Qed.

(** With an authority [a] made of such characters and followed by a path,
    the parser takes exactly [a] for the host text, finds no user
    information, and goes on to split the port off. *)
Lemma parse_host_authority (a path : string) (u : Url.t) :
  JS.forallb_str authority_char a = true ->
  Url.parse_host (a +:+ String "/" path) u =
    let '(port, host) :=
      match Url.portPattern a with
      | Some (h, digits) => (if JS.truthy digits then Some digits else None, h)
      | None => (None, a)
      end in
    let hostname :=
      if Url.is_ipv6Hostname host then host else Url.validate_hostname host in
    let hostname :=
      if (Url.hostnameMaxLen <? String.length hostname)%nat then EmptyString
      else JS.toLowerCase hostname in
    let p := match port with Some d => ":" +:+ d | None => EmptyString end in
    Url.mk (Url.protocol u) (Url.slashes u) None port (Some hostname)
      (Some (hostname +:+ p)).
Proof.
  intros Ha. unfold Url.parse_host.
  rewrite (break_app (fun c => Url.mem_char c Url.hostEndingChars) a "/" path);
    [|revert Ha; apply forallb_str_impl; intros c Hc;
      now destruct (authority_char_classes c Hc) as (_ & -> & _)
     |reflexivity].
  rewrite (break_last_absent "@" a);
    [|revert Ha; apply forallb_str_impl; intros c Hc;
      now destruct (authority_char_classes c Hc) as (_ & _ & _ & ->)].
  rewrite (break_app (fun c => Url.mem_char c Url.nonHostChars) a "/" path);
    [|revert Ha; apply forallb_str_impl; intros c Hc;
      now destruct (authority_char_classes c Hc) as (_ & _ & -> & _)
     |reflexivity].
  reflexivity.
Qed.

Lemma host_is_authority (h : string) :
  JS.forallb_str host_char h = true -> JS.forallb_str authority_char h = true.
Proof.
  apply forallb_str_impl. intros c Hc. unfold authority_char. now rewrite Hc.
Qed.

Lemma digits_are_authority (port : string) :
  JS.forallb_str JS.is_digit port = true ->
  JS.forallb_str authority_char port = true.
Proof.
  apply forallb_str_impl. intros c Hc. unfold authority_char.
  now rewrite Hc, orb_true_r.
Qed.

Lemma is_ipv6Hostname_valid (h : string) :
  JS.forallb_str host_char h = true -> Url.is_ipv6Hostname h = false.
Proof.
  destruct h as [|c h]; [reflexivity|]. cbn [JS.forallb_str].
  intros [Hc _]%andb_prop. unfold Url.is_ipv6Hostname.
  now destruct (host_char_classes c Hc) as (_ & _ & _ & _ & _ & ->).
Qed.

(** The host that the parser finds for a valid hostname [h], by itself or
    with a port. *)
Lemma hostname_of_valid (h : string) :
  valid_hostname h = true ->
  (if Url.is_ipv6Hostname h then h else Url.validate_hostname h) = h
  /\ (Url.hostnameMaxLen <? String.length h)%nat = false
  /\ JS.forallb_str host_char h = true.
Proof.
  unfold valid_hostname. intros [[Hparts Hlen]%andb_prop _]%andb_prop.
  pose proof (valid_parts_host_chars h Hparts) as Hchars.
  rewrite (is_ipv6Hostname_valid h Hchars).
  unfold Url.validate_hostname. rewrite (validate_parts_valid [] _ Hparts).
  repeat split; [|exact Hchars].
  apply Nat.ltb_ge. now apply Nat.leb_le.
Qed.

Lemma trim_url (scheme a path : string) :
  scheme = "http" \/ scheme = "https" ->
  JS.forallb_str authority_char a = true ->
  JS.trim (scheme +:+ "://" +:+ a +:+ String "/" path) =
    scheme +:+ "://" +:+ a +:+ String "/" (JS.trimEnd path).
Proof.
  intros Hs Ha.
  assert (Hsp : JS.forallb_str (fun c => negb (JS.is_space c)) a = true).
  { revert Ha. apply forallb_str_impl. intros c Hc.
    now destruct (authority_char_classes c Hc) as (-> & _). }
  assert (E : JS.trimEnd (a +:+ String "/" path) = a +:+ String "/" (JS.trimEnd path)).
  { rewrite trimEnd_app by exact Hsp. now rewrite trimEnd_cons. }
  unfold JS.trim.
  destruct Hs as [-> | ->];
    rewrite trimStart_app by (reflexivity || discriminate);
    rewrite !trimEnd_app by reflexivity; now rewrite E.
Qed.

Lemma parse_url (scheme a path : string) :
  scheme = "http" \/ scheme = "https" ->
  JS.forallb_str authority_char a = true ->
  Url.parse (scheme +:+ "://" +:+ a +:+ String "/" path) =
    Url.parse_host (a +:+ String "/" (JS.trimEnd path))
      (Url.mk (Some (scheme +:+ ":")) true None None None None).
Proof.
  intros Hs Ha. unfold Url.parse. rewrite (trim_url scheme a path Hs Ha).
  destruct Hs as [-> | ->]; reflexivity.
Qed.

Lemma append_cons_neq (a : string) (c : ascii) (b : string) :
  a +:+ String c b <> a.
Proof.
  induction a as [|d a IH]; simpl; [discriminate|].
  intros H. injection H as H. contradiction.
Qed.

Lemma append_empty (s : string) : s +:+ "" = s.
Proof.
  induction s as [|c s IH]; [reflexivity|].
  change (String c s +:+ "") with (String c (s +:+ "")). now rewrite IH.
Qed.

Lemma toLowerCase_truthy (h : string) :
  JS.truthy (JS.toLowerCase h) = JS.truthy h.
Proof. now destruct h. Qed.

(** X21: the key of a full URL is its host: the scheme and the path are
    stripped and the hostname is put in lower case, but a port written in
    the URL stays in the key.  A URL with a port and the same URL without it
    are therefore different keys, while the path makes no difference. *)
Theorem getDomain_of_url (scheme h port path path' : string) :
  scheme = "http" \/ scheme = "https" ->
  valid_hostname h = true ->
  JS.forallb_str JS.is_digit port = true -> port <> EmptyString ->
  getDomain (scheme +:+ "://" +:+ (h +:+ String ":" port) +:+ String "/" path)
    = JS.toLowerCase h +:+ String ":" port
  /\ getDomain (scheme +:+ "://" +:+ h +:+ String "/" path) = JS.toLowerCase h
  /\ getDomain (scheme +:+ "://" +:+ (h +:+ String ":" port) +:+ String "/" path)
     = getDomain (scheme +:+ "://" +:+ (h +:+ String ":" port) +:+ String "/" path')
  /\ getDomain (scheme +:+ "://" +:+ (h +:+ String ":" port) +:+ String "/" path)
     <> getDomain (scheme +:+ "://" +:+ h +:+ String "/" path).
Proof.
  intros Hs Hh Hd Hp.
  destruct (hostname_of_valid h Hh) as (Hval & Hlen & Hchars).
  assert (Hcolon : JS.forallb_str (fun d => negb (Ascii.eqb d ":")) port = true).
  { revert Hd. apply forallb_str_impl. intros c Hc.
    now destruct (digit_classes c Hc) as (_ & _ & _ & _ & ->). }
  assert (Hcolon' : JS.forallb_str (fun d => negb (Ascii.eqb d ":")) h = true).
  { revert Hchars. apply forallb_str_impl. intros c Hc.
    now destruct (host_char_classes c Hc) as (_ & _ & _ & _ & -> & _). }
  assert (Ha : JS.forallb_str authority_char (h +:+ String ":" port) = true).
  { rewrite forallb_str_app. cbn [JS.forallb_str].
    rewrite (host_is_authority h Hchars), (digits_are_authority port Hd).
    reflexivity. }
  assert (E1 : forall p,
    getDomain (scheme +:+ "://" +:+ (h +:+ String ":" port) +:+ String "/" p)
      = JS.toLowerCase h +:+ String ":" port).
  { intros p. unfold getDomain. rewrite (parse_url scheme _ p Hs Ha).
    rewrite parse_host_authority by exact Ha.
    unfold Url.portPattern. rewrite (break_last_app ":" h port Hcolon), Hd.
    apply truthy_true in Hp. rewrite Hp, Hval, Hlen.
    cbn [Url.host JS.or_else]. change (":" +:+ port) with (String ":" port).
    now rewrite truthy_app. }
  assert (E2 : getDomain (scheme +:+ "://" +:+ h +:+ String "/" path)
               = JS.toLowerCase h).
  { unfold getDomain.
    rewrite (parse_url scheme h path Hs (host_is_authority h Hchars)).
    rewrite parse_host_authority by exact (host_is_authority h Hchars).
    unfold Url.portPattern. rewrite (break_last_absent ":" h Hcolon'), Hval, Hlen.
    cbn [Url.host JS.or_else]. rewrite append_empty, toLowerCase_truthy.
    unfold valid_hostname in Hh. apply andb_prop in Hh as [_ Ht]. now rewrite Ht. }
  rewrite E2, !E1. repeat split. apply append_cons_neq.
Qed.

Lemma getDomain_of_url_witness :
  getDomain "https://example.com:443/path" = "example.com:443"
  /\ getDomain "https://example.com/path" = "example.com"
  /\ getDomain "https://example.com:443/path" = getDomain "https://example.com:443/other"
  /\ getDomain "https://example.com:443/path" <> getDomain "https://example.com/path".
Proof.
  apply (getDomain_of_url "https" "example.com" "443" "path" "other").
  - right. reflexivity.
  - vm_compute. reflexivity.
  - vm_compute. reflexivity.
  - discriminate.
Defined.

(** C5, on the code as it is: the port is not stripped.  Registering
    [https://example.com:443/path] stores the fingerprint under
    [example.com:443], not under [example.com], so the lookup of
    [example.com] finds nothing; and the lookup of the host as the
    transport reports it for that URL, [example.com:443], finds nothing
    either, because it looks under [443]. *)
Theorem C5_port_stays_in_key :
  let g := snd (addFingerprint "https://example.com:443/path" "AA:BB:CC"
                  initial_globals) in
  getDomain "https://example.com:443/path" = "example.com:443"
  /\ getDomain "example.com" = "example.com"
  /\ fingerprints g !! "example.com:443" = Some "AA:BB:CC"
  /\ fingerprints g !! "example.com" = None
  /\ getFingerprintForURL (fingerprints g) "example.com" = Undefined
  /\ getDomain "example.com:443" = "443"
  /\ getFingerprintForURL (fingerprints g) "example.com:443" = Undefined.
Proof. repeat split; vm_compute; reflexivity. Qed.

(** ** Further properties of the library *)

(** *** Removing fingerprints *)

Lemma set_fingerprints_id (g : globals) (f : gmap string string -> gmap string string) :
  f (fingerprints g) = fingerprints g -> set_fingerprints f g = g.
Proof. intros H. destruct g as [fps sp l]. unfold set_fingerprints. cbn in *. now rewrite H. Qed.

(** X1: removing a pattern right after registering it, under any spelling
    with the same key, gives back the module state from before the
    registration when the pattern was not registered then. *)
Theorem removeFingerprint_undoes_addFingerprint (g : globals)
  (url url' fingerprint : string) :
  url <> EmptyString -> fingerprint <> EmptyString ->
  getDomain url' = getDomain url ->
  fingerprints g !! getDomain url = None ->
  (addFingerprint url fingerprint;; removeFingerprint url') g = (Return tt, g).
Proof.
  intros Hu Hf Hk Hnone. unfold mbind, M_bind, bind.
  rewrite (addFingerprint_stores g url fingerprint Hu Hf).
  unfold removeFingerprint, modify. rewrite Hk. f_equal.
  destruct g as [fps sp l]. unfold set_fingerprints. cbn in *.
  now rewrite delete_obj_set.
Qed.

Lemma removeFingerprint_undoes_addFingerprint_witness :
  (addFingerprint "example.com" "AA:BB:CC";; removeFingerprint "https://example.com/x")
    initial_globals = (Return tt, initial_globals).
Proof.
  apply removeFingerprint_undoes_addFingerprint.
  - discriminate.
  - discriminate.
  - vm_compute. reflexivity.
  - vm_compute. reflexivity.
Defined.

(** X2: for a name without user information, also one that is not
    registered or is empty, [removeFingerprint] returns normally; it clears
    the entry of the key and nothing else.  The lookup of the name then
    returns the member of [Object.prototype] when the key names one, and
    otherwise whatever the wildcard key holds, so it can still succeed. *)
Theorem removeFingerprint_clears_key (g : globals) (name : string) :
  no_userinfo name ->
  exists g',
    removeFingerprint name g = (Return tt, g')
    /\ fingerprints g' !! getDomain name = None
    /\ (forall k, k <> getDomain name -> fingerprints g' !! k = fingerprints g !! k)
    /\ secureProtocol g' = secureProtocol g
    /\ _lastURL g' = _lastURL g
    /\ getFingerprintForURL (fingerprints g') name
       = if inherited (getDomain name) then Inherited (getDomain name)
         else obj_get (fingerprints g') (wildcard (getDomain name)).
Proof.
  intros _.
  eexists. split; [reflexivity|]. cbn [fingerprints set_fingerprints secureProtocol _lastURL].
  assert (H : delete (getDomain name) (fingerprints g) !! getDomain name = None)
    by apply lookup_delete_eq.
  split; [exact H|]. split.
  - intros k Hk. apply lookup_delete_ne. congruence.
  - repeat split. unfold getFingerprintForURL.
    destruct (inherited (getDomain name)) eqn:Hi.
    + now rewrite (obj_get_inherited _ _ H Hi).
    + now rewrite (obj_get_absent _ _ H Hi).
Qed.

Lemma removeFingerprint_clears_key_witness :
  exists g',
    removeFingerprint "https://example.com/x"
      (snd (addFingerprint "example.com" "AA:BB:CC" initial_globals))
    = (Return tt, g')
    /\ fingerprints g' !! "example.com" = None
    /\ getFingerprintForURL (fingerprints g') "https://example.com/x" = Undefined.
Proof.
  destruct (removeFingerprint_clears_key
              (snd (addFingerprint "example.com" "AA:BB:CC" initial_globals))
              "https://example.com/x") as (g' & H1 & H2 & _ & _ & _ & H6).
  - vm_compute. reflexivity.
  - exists g'. split; [exact H1|]. split; [exact H2|].
    rewrite H6. injection H1 as <-. vm_compute. reflexivity.
Defined.

(** X3: after [removeAllFingerprints] the registry is empty, whatever was
    registered before, and no lookup returns a fingerprint: the lookup of a
    URL without user information returns the member of [Object.prototype]
    when the key of the URL names one, and nothing otherwise.  The default
    protocol and the last URL are kept. *)
Theorem removeAllFingerprints_empties (g : globals) (url : string) :
  no_userinfo url ->
  exists g',
    removeAllFingerprints g = (Return tt, g')
    /\ fingerprints g' = ∅
    /\ getFingerprintForURL (fingerprints g') url
       = (if inherited (getDomain url) then Inherited (getDomain url)
          else Undefined)
    /\ (forall v, getFingerprintForURL (fingerprints g') url <> Str v)
    /\ secureProtocol g' = secureProtocol g
    /\ _lastURL g' = _lastURL g.
Proof.
  intros _.
  eexists. split; [reflexivity|]. cbn [fingerprints set_fingerprints secureProtocol _lastURL].
  split; [reflexivity|].
  assert (E : getFingerprintForURL ∅ url
              = if inherited (getDomain url) then Inherited (getDomain url)
                else Undefined).
  { unfold getFingerprintForURL, obj_get. rewrite !lookup_empty.
    rewrite wildcard_not_inherited.
    destruct (inherited (getDomain url)); reflexivity. }
  split; [exact E|]. split; [|split; reflexivity].
  intros v. rewrite E. destruct (inherited (getDomain url)); discriminate.
Qed.

Lemma removeAllFingerprints_empties_witness :
  exists g',
    removeAllFingerprints
      (snd (addFingerprint "example.com" "AA:BB:CC" initial_globals))
    = (Return tt, g')
    /\ fingerprints g' = ∅
    /\ getFingerprintForURL (fingerprints g') "example.com" = Undefined
    /\ getFingerprintForURL (fingerprints g') "constructor" = Inherited "constructor".
Proof.
  destruct (removeAllFingerprints_empties
              (snd (addFingerprint "example.com" "AA:BB:CC" initial_globals))
              "example.com") as (g' & H1 & H2 & H3 & _).
  - vm_compute. reflexivity.
  - exists g'. split; [exact H1|]. split; [exact H2|]. split.
    + rewrite H3. vm_compute. reflexivity.
    + rewrite H2. vm_compute. reflexivity.
Defined.

(** *** What a lookup can return *)

(** X4: the lookup of a URL without user information only returns a
    fingerprint that the registry holds, under the key of the URL or under
    its wildcard key.  When neither key is registered it returns nothing,
    unless the key of the URL names a member of [Object.prototype]: then it
    returns that member. *)
Theorem lookup_returns_registered (fps : gmap string string) (url : string) :
  no_userinfo url ->
  (forall v, getFingerprintForURL fps url = Str v ->
     fps !! getDomain url = Some v \/ fps !! wildcard (getDomain url) = Some v)
  /\ (fps !! getDomain url = None -> fps !! wildcard (getDomain url) = None ->
      inherited (getDomain url) = false ->
      getFingerprintForURL fps url = Undefined)
  /\ (fps !! getDomain url = None -> inherited (getDomain url) = true ->
      getFingerprintForURL fps url = Inherited (getDomain url)).
Proof.
  intros _. unfold getFingerprintForURL. repeat split.
  - intros v.
    destruct (negb (truthy_value (obj_get fps (getDomain url)))); intros H;
      apply obj_get_Str in H; auto.
  - intros H1 H2 Hi. rewrite (obj_get_absent _ _ H1 Hi). cbn.
    apply obj_get_absent; [exact H2|apply wildcard_not_inherited].
  - intros H1 Hi. now rewrite (obj_get_inherited _ _ H1 Hi).
Qed.

Lemma lookup_returns_registered_witness :
  getFingerprintForURL {[ "example.com" := "AA:BB:CC" ]} "other.example.org"
  = Undefined
  /\ getFingerprintForURL {[ "example.com" := "AA:BB:CC" ]} "constructor"
     = Inherited "constructor".
Proof.
  split.
  - apply (proj1 (proj2 (lookup_returns_registered
                           {[ "example.com" := "AA:BB:CC" ]}
                           "other.example.org" eq_refl)));
      vm_compute; reflexivity.
  - apply (proj2 (proj2 (lookup_returns_registered
                           {[ "example.com" := "AA:BB:CC" ]}
                           "constructor" eq_refl)));
      vm_compute; reflexivity.
Defined.

(** X5: a domain written without colon and without at-sign, other than
    [__proto__], is its own registry key: it is registered and looked up
    under exactly the text given, with no change of case. *)
Theorem plain_host_is_its_own_key (g : globals) (host fingerprint : string) :
  plain host = true -> host <> EmptyString -> host <> "__proto__" ->
  fingerprint <> EmptyString ->
  getDomain host = host
  /\ fingerprints (snd (addFingerprint host fingerprint g)) !! host
     = Some (strip_label fingerprint).
Proof.
  intros Hp Hh Hproto Hf.
  assert (E : getDomain host = host).
  { unfold getDomain. now rewrite (proj1 (parse_plain host Hp)). }
  split; [exact E|]. rewrite (addFingerprint_stores g host fingerprint Hh Hf).
  cbn [snd fingerprints set_fingerprints]. rewrite E.
  rewrite (obj_set_insert _ _ _ Hproto). apply lookup_insert_eq.
Qed.

Lemma plain_host_is_its_own_key_witness :
  getDomain "API.Example.com" = "API.Example.com"
  /\ fingerprints (snd (addFingerprint "API.Example.com" "AA:BB:CC" initial_globals))
       !! "API.Example.com" = Some "AA:BB:CC".
Proof.
  apply (plain_host_is_its_own_key initial_globals "API.Example.com" "AA:BB:CC").
  - vm_compute. reflexivity.
  - discriminate.
  - discriminate.
  - discriminate.
Defined.

(** X22: a registration under the key [__proto__] stores nothing.  The
    assignment to that key of a plain object is ignored for a string, so the
    module state stays as it was, and a lookup of [__proto__] that finds no
    own entry returns the prototype, never the fingerprint. *)
Theorem addFingerprint_proto_is_ignored (g : globals) (fingerprint : string) :
  fingerprint <> EmptyString ->
  addFingerprint "__proto__" fingerprint g = (Return tt, g)
  /\ (fingerprints g !! "__proto__" = None ->
      getFingerprintForURL (fingerprints g) "__proto__" = Inherited "__proto__").
Proof.
  intros Hf. split.
  - rewrite addFingerprint_stores; [|discriminate|exact Hf].
    now rewrite set_fingerprints_id.
  - intros H. unfold getFingerprintForURL.
    change (getDomain "__proto__") with "__proto__".
    now rewrite (obj_get_inherited _ _ H eq_refl).
Qed.

Lemma addFingerprint_proto_is_ignored_witness :
  addFingerprint "__proto__" "SHA1 Fingerprint=AA:BB:CC" initial_globals
  = (Return tt, initial_globals)
  /\ getFingerprintForURL (fingerprints initial_globals) "__proto__"
     = Inherited "__proto__".
Proof.
  destruct (addFingerprint_proto_is_ignored initial_globals
              "SHA1 Fingerprint=AA:BB:CC") as [E H]; [discriminate|].
  split; [exact E|]. apply H. vm_compute. reflexivity.
Defined.

(** *** Issuing a request *)

(** X6: an HTTPS request reaches the transport with the caller's URL and
    callback, and with agent options that are the caller's own plus the
    module's default secure protocol, which replaces a [secureProtocol] of
    the caller; the request starts with nothing done, the last URL becomes
    the requested one and the registry is not touched. *)
Theorem Request_https_sets_secureProtocol (o : options) (callback : bool)
  (g : globals) :
  Url.protocol (Url.parse (opt_url o)) = Some "https:" ->
  exists r g1 ao,
    Request o callback g = (Return r, g1)
    /\ opt_url (transport_opts r) = opt_url o
    /\ transport_callback r = callback
    /\ agentOptions (transport_opts r) = Some ao
    /\ ao !! "secureProtocol" = Some (secureProtocol g)
    /\ (forall k, k <> "secureProtocol" ->
          ao !! k = default ∅ (agentOptions o) !! k)
    /\ trace r = []
    /\ _lastURL g1 = Some (opt_url o)
    /\ fingerprints g1 = fingerprints g
    /\ secureProtocol g1 = secureProtocol g.
Proof.
  intros H. rewrite (Request_https o callback g H).
  eexists _, _, _. split; [reflexivity|]. cbn.
  split; [reflexivity|]. split; [reflexivity|]. split; [reflexivity|].
  split; [apply lookup_insert_eq|]. split; [|repeat split].
  intros k Hk. apply lookup_insert_ne. congruence.
Qed.

Lemma Request_https_sets_secureProtocol_witness :
  exists r g1 ao,
    Request {| opt_url := "https://example.com/";
               agentOptions := Some {[ "secureProtocol" := "TLSv1_method";
                                       "ciphers" := "HIGH" ]} |}
      true initial_globals = (Return r, g1)
    /\ agentOptions (transport_opts r) = Some ao
    /\ ao !! "secureProtocol" = Some "SSLv23_method"
    /\ ao !! "ciphers" = Some "HIGH".
Proof.
  destruct (Request_https_sets_secureProtocol
              {| opt_url := "https://example.com/";
                 agentOptions := Some {[ "secureProtocol" := "TLSv1_method";
                                         "ciphers" := "HIGH" ]} |}
              true initial_globals eq_refl)
    as (r & g1 & ao & E & _ & _ & Hao & Hsp & Hother & _).
  exists r, g1, ao. split; [exact E|]. split; [exact Hao|]. split; [exact Hsp|].
  rewrite Hother by discriminate. vm_compute. reflexivity.
Defined.

(** X7: the protocol given to [setDefaultSecureProtocol] is the one that an
    HTTPS request issued afterwards carries in its agent options. *)
Theorem setDefaultSecureProtocol_reaches_request (value : string) (o : options)
  (callback : bool) (g : globals) :
  Url.protocol (Url.parse (opt_url o)) = Some "https:" ->
  exists r g1 ao,
    (setDefaultSecureProtocol value;; Request o callback) g = (Return r, g1)
    /\ agentOptions (transport_opts r) = Some ao
    /\ ao !! "secureProtocol" = Some value
    /\ secureProtocol g1 = value
    /\ fingerprints g1 = fingerprints g.
Proof.
  intros H. unfold mbind, M_bind, bind. cbn [setDefaultSecureProtocol modify].
  rewrite Request_https by exact H.
  eexists _, _, _. split; [reflexivity|]. cbn.
  split; [reflexivity|]. split; [apply lookup_insert_eq|]. split; reflexivity.
Qed.

Lemma setDefaultSecureProtocol_reaches_request_witness :
  exists r g1 ao,
    (setDefaultSecureProtocol "TLSv1_2_method";;
     Request {| opt_url := "https://example.com/"; agentOptions := None |} false)
      initial_globals = (Return r, g1)
    /\ agentOptions (transport_opts r) = Some ao
    /\ ao !! "secureProtocol" = Some "TLSv1_2_method".
Proof.
  destruct (setDefaultSecureProtocol_reaches_request "TLSv1_2_method"
              {| opt_url := "https://example.com/"; agentOptions := None |}
              false initial_globals eq_refl)
    as (r & g1 & ao & E & Hao & Hsp & _).
  exists r, g1, ao. split; [exact E|]. split; [exact Hao|exact Hsp].
Defined.

(** X8: a request without URL throws [missing url] before anything is
    handed to the transport, and the module state stays as it was. *)
Theorem Request_missing_url (o : options) (callback : bool) (g : globals) :
  opt_url o = EmptyString ->
  Request o callback g = (Throw {| error_message := "missing url" |}, g).
Proof. intros H. unfold Request. rewrite H. reflexivity. Qed.

Lemma Request_missing_url_witness :
  Request {| opt_url := ""; agentOptions := None |} true initial_globals
  = (Throw {| error_message := "missing url" |}, initial_globals).
Proof. apply Request_missing_url. reflexivity. Defined.

(** *** What the listeners do and leave alone *)

Lemma rejection_accepted (fps : gmap string string) (u : string) (s : signal) :
  accepted fps s = true -> rejection fps u s = None.
Proof.
  destruct s as [a|host fp]; cbn [accepted rejection]; [now intros ->|].
  intros [Hl Hf]%andb_prop. apply bool_decide_eq_true_1 in Hl.
  rewrite Hl. cbn [truthy_value]. rewrite Hf. cbn [negb].
  now rewrite bool_decide_eq_true_2.
Qed.

Lemma rejection_rejected (fps : gmap string string) (u : string) (s : signal) :
  accepted fps s = false -> exists err, rejection fps u s = Some (Return err).
Proof.
  destruct s as [a|host fp]; cbn [accepted rejection].
  - intros ->.
    destruct (createErrorMessage_one domain_notauthorized u recognized_notauthorized)
      as (err & -> & _). eauto.
  - destruct (createErrorMessage_one domain_invalid host recognized_invalid)
      as (e2 & -> & _).
    destruct (createErrorMessage_one domain_fingerprint_mismatch host
                recognized_mismatch) as (e3 & -> & _).
    intros H.
    destruct (truthy_value (getFingerprintForURL fps host)) eqn:Ht;
      cbn [negb]; [|eauto].
    destruct (bool_decide (getFingerprintForURL fps host = Str fp)) eqn:Hd;
      cbn [negb]; [|eauto].
    cbn [andb] in H. apply bool_decide_eq_true_1 in Hd. rewrite Hd in Ht.
    cbn [truthy_value] in Ht. congruence.
Qed.

Lemma aborts_app (tr1 tr2 : list effect) :
  aborts (tr1 ++ tr2) = aborts tr1 + aborts tr2.
Proof.
  induction tr1 as [|[| |] tr1 IH]; simpl; [reflexivity| |exact IH|exact IH].
  now rewrite IH.
Qed.

Lemma step_request_aborts (fps : gmap string string) (s : signal) (r : request) :
  if accepted fps s
  then trace (step_request fps s r) = trace r
  else aborts (trace (step_request fps s r)) = S (aborts (trace r)).
Proof.
  unfold step_request. destruct (accepted fps s) eqn:E.
  - now rewrite (rejection_accepted fps (url r) s E).
  - destruct (rejection_rejected fps (url r) s E) as (err & ->).
    unfold latch. cbn [hasCallback originalCallback trace].
    destruct (hasCallback r), (originalCallback r); cbn;
      rewrite ?aborts_app; cbn; lia.
Qed.

Lemma rejections_length (fps : gmap string string) (u : string) (ss : list signal) :
  length (rejections fps u ss)
  = length (List.filter (fun s => negb (accepted fps s)) ss).
Proof.
  revert u. induction ss as [|s ss IH]; intros u; [reflexivity|].
  cbn [rejections List.filter]. destruct (accepted fps s) eqn:E.
  - rewrite (rejection_accepted fps u s E). cbn. apply IH.
  - destruct (rejection_rejected fps u s E) as (err & ->). cbn. now rewrite IH.
Qed.

Lemma steps_request_aborts (fps : gmap string string) (ss : list signal)
  (r : request) :
  aborts (trace (steps_request fps ss r))
  = aborts (trace r) + length (List.filter (fun s => negb (accepted fps s)) ss).
Proof.
  revert r. induction ss as [|s ss IH]; intros r; [cbn; lia|].
  cbn [steps_request fold_left List.filter].
  fold (steps_request fps ss (step_request fps s r)). rewrite IH.
  pose proof (step_request_aborts fps s r) as H.
  destruct (accepted fps s); cbn; [now rewrite H|rewrite H; lia].
Qed.

Lemma steps_request_accepted (fps : gmap string string) (ss : list signal)
  (r : request) :
  forallb (accepted fps) ss = true -> trace (steps_request fps ss r) = trace r.
Proof.
  revert r. induction ss as [|s ss IH]; intros r; [reflexivity|].
  cbn [forallb steps_request fold_left]. intros [Hs Hss]%andb_prop.
  fold (steps_request fps ss (step_request fps s r)). rewrite IH by exact Hss.
  pose proof (step_request_aborts fps s r) as H. now rewrite Hs in H.
Qed.

Lemma filter_rejected_nil (fps : gmap string string) (ss : list signal) :
  length (List.filter (fun s => negb (accepted fps s)) ss) = 0 ->
  forallb (accepted fps) ss = true.
Proof.
  induction ss as [|s ss IH]; [reflexivity|]. cbn.
  destruct (accepted fps s); cbn; [exact IH|discriminate].
Qed.

(** X9: every rejection aborts the request, the first one and the later
    ones alike, although only the first is reported: at the end of an HTTPS
    exchange the request has been aborted once for each signal that was
    not let through. *)
Theorem every_rejection_aborts (o : options) (callback : bool) (g : globals)
  (ss : list signal) :
  Url.protocol (Url.parse (opt_url o)) = Some "https:" ->
  exists r g1 r2 g2,
    Request o callback g = (Return r, g1)
    /\ deliver_all ss (g1, r) = (Return tt, (g2, r2))
    /\ aborts (trace r2)
       = length (List.filter (fun s => negb (accepted (fingerprints g) s)) ss)
    /\ aborts (trace r2) = length (rejections (fingerprints g) (opt_url o) ss).
Proof.
  intros H. rewrite (Request_https o callback g H).
  eexists _, _, _, _. split; [reflexivity|].
  rewrite deliver_all_steps by reflexivity. split; [reflexivity|].
  cbn [fingerprints set_lastURL]. rewrite steps_request_aborts, rejections_length.
  cbn. split; reflexivity.
Qed.

Lemma every_rejection_aborts_witness :
  let g := snd (addFingerprint "example.com" "AA11" initial_globals) in
  exists r g1 r2 g2,
    Request {| opt_url := "https://example.com/"; agentOptions := None |} true g
      = (Return r, g1)
    /\ deliver_all [secureConnect false; response "example.com" "AA11";
                    response "example.com" "BB22"] (g1, r) = (Return tt, (g2, r2))
    /\ aborts (trace r2) = 2.
Proof.
  intros g.
  destruct (every_rejection_aborts
              {| opt_url := "https://example.com/"; agentOptions := None |} true g
              [secureConnect false; response "example.com" "AA11";
               response "example.com" "BB22"] eq_refl)
    as (r & g1 & r2 & g2 & E & D & Ha & _).
  exists r, g1, r2, g2. split; [exact E|]. split; [exact D|].
  rewrite Ha. vm_compute. reflexivity.
Defined.

(** X10: an HTTPS exchange ends with nothing aborted and nothing reported
    exactly when every signal was let through: every socket was authorized
    and every response carried the non-empty fingerprint that the lookup of
    its host returns.  No other response passes. *)
Theorem silent_exchange_iff_all_accepted (o : options) (callback : bool)
  (g : globals) (ss : list signal) :
  Url.protocol (Url.parse (opt_url o)) = Some "https:" ->
  exists r g1 r2 g2,
    Request o callback g = (Return r, g1)
    /\ deliver_all ss (g1, r) = (Return tt, (g2, r2))
    /\ (trace r2 = [] <-> forallb (accepted (fingerprints g)) ss = true).
Proof.
  intros H. rewrite (Request_https o callback g H).
  eexists _, _, _, _. split; [reflexivity|].
  rewrite deliver_all_steps by reflexivity. split; [reflexivity|].
  cbn [fingerprints set_lastURL]. split.
  - intros Ht. apply filter_rejected_nil.
    match goal with
    | Ht : trace (steps_request ?fps ss ?r) = [] |- _ =>
        pose proof (steps_request_aborts fps ss r) as Ha; rewrite Ht in Ha
    end.
    cbn in Ha. lia.
  - intros Hall. now rewrite steps_request_accepted.
Qed.

Lemma silent_exchange_iff_all_accepted_witness :
  let g := snd (addFingerprint "example.com" "AA11" initial_globals) in
  exists r g1 r2 g2,
    Request {| opt_url := "https://example.com/"; agentOptions := None |} true g
      = (Return r, g1)
    /\ deliver_all [secureConnect true; response "example.com" "AA11"] (g1, r)
       = (Return tt, (g2, r2))
    /\ trace r2 = [].
Proof.
  intros g.
  destruct (silent_exchange_iff_all_accepted
              {| opt_url := "https://example.com/"; agentOptions := None |} true g
              [secureConnect true; response "example.com" "AA11"] eq_refl)
    as (r & g1 & r2 & g2 & E & D & Hiff).
  exists r, g1, r2, g2. split; [exact E|]. split; [exact D|].
  apply Hiff. vm_compute. reflexivity.
Defined.

Lemma steps_globals_frame (ss : list signal) (g : globals) :
  fingerprints (steps_globals ss g) = fingerprints g
  /\ secureProtocol (steps_globals ss g) = secureProtocol g.
Proof.
  revert g. induction ss as [|s ss IH]; intros g; [split; reflexivity|].
  cbn [steps_globals fold_left]. fold (steps_globals ss (step_globals s g)).
  destruct (IH (step_globals s g)) as [-> ->]. destruct s; split; reflexivity.
Qed.

Lemma step_request_frame (fps : gmap string string) (s : signal) (r : request) :
  transport_opts (step_request fps s r) = transport_opts r
  /\ transport_callback (step_request fps s r) = transport_callback r.
Proof.
  unfold step_request, latch.
  destruct (rejection fps (url r) s) as [[err|e]|]; cbn; try (split; reflexivity).
  destruct (hasCallback r), (originalCallback r); split; reflexivity.
Qed.

Lemma steps_request_frame (fps : gmap string string) (ss : list signal)
  (r : request) :
  transport_opts (steps_request fps ss r) = transport_opts r
  /\ transport_callback (steps_request fps ss r) = transport_callback r
  /\ isSSL (steps_request fps ss r) = isSSL r.
Proof.
  revert r. induction ss as [|s ss IH]; intros r; [repeat split|].
  cbn [steps_request fold_left]. fold (steps_request fps ss (step_request fps s r)).
  destruct (IH (step_request fps s r)) as (-> & -> & ->).
  destruct (step_request_frame fps s r) as [-> ->].
  now rewrite step_request_isSSL.
Qed.

(** X11: the listeners only read the registry.  No listener writes the
    registered fingerprints, the default protocol or what was handed to the
    transport: in the state that any sequence of signals leaves, on a pinned
    request or another, they are what they were. *)
Theorem listeners_leave_registry (ss : list signal) (g : globals) (r : request) :
  let w := snd (deliver_all ss (g, r)) in
  fingerprints (fst w) = fingerprints g
  /\ secureProtocol (fst w) = secureProtocol g
  /\ transport_opts (snd w) = transport_opts r
  /\ transport_callback (snd w) = transport_callback r
  /\ isSSL (snd w) = isSSL r.
Proof.
  cbv zeta. destruct (isSSL r) eqn:E.
  - rewrite deliver_all_steps by exact E. cbn [fst snd].
    destruct (steps_globals_frame ss g) as [-> ->].
    destruct (steps_request_frame (fingerprints g) ss r) as (-> & -> & ->).
    now rewrite E.
  - rewrite deliver_all_unpinned by exact E. cbn [fst snd]. now rewrite E.
Qed.

(** X12: after a response the last URL always names the scheme: it is the
    host that answered when that text starts with [https:], and that host
    after [https://] otherwise; the variable [url] of the exchange holds the
    host from then on. *)
Theorem response_sets_lastURL (g : globals) (r : request)
  (host fingerprint : string) :
  isSSL r = true ->
  exists g' r' last,
    deliver (response host fingerprint) (g, r) = (Return tt, (g', r'))
    /\ getLastURL g' = (Return (Some last), g')
    /\ JS.starts_with "https:" last = true
    /\ last = (if JS.starts_with "https:" host then host else "https://" +:+ host)
    /\ url r' = host.
Proof.
  intros H. rewrite deliver_step by exact H. eexists _, _, _.
  split; [reflexivity|]. cbn [step_globals]. split; [reflexivity|].
  rewrite step_request_url. cbn [url_after]. split; [|split; reflexivity].
  destruct (JS.starts_with "https:" host) eqn:E; [exact E|reflexivity].
Qed.

Lemma response_sets_lastURL_witness :
  exists g' r',
    deliver (response "example.com" "AA11")
      (initial_globals,
       mk_request {| opt_url := "https://example.org/"; agentOptions := None |}
         true true "https://example.org/" true true [])
    = (Return tt, (g', r'))
    /\ getLastURL g' = (Return (Some "https://example.com"), g')
    /\ url r' = "example.com".
Proof.
  destruct (response_sets_lastURL initial_globals
              (mk_request {| opt_url := "https://example.org/"; agentOptions := None |}
                 true true "https://example.org/" true true [])
              "example.com" "AA11" eq_refl)
    as (g' & r' & last & E & Hl & _ & Hlast & Hu).
  exists g', r'. split; [exact E|]. split; [|exact Hu].
  rewrite Hl. rewrite Hlast. reflexivity.
Defined.

(** *** The errors *)

(** X13: each kind of error carries its identifier, the name
    [RequestSSLError] and a message that spells out the URL or host it was
    built for. *)
Theorem error_messages_name_the_url (u : string) :
  createErrorMessage domain_invalid [u] =
    Return {| id := "request.ssl.security.domain.invalid";
              name := "RequestSSLError";
              message := Some ("SSL authorization failed. URL: " +:+ u +:+
                " does not have a valid fingerprint which can be used to verify the SSL certificate.") |}
  /\ createErrorMessage domain_notauthorized [u] =
       Return {| id := "request.ssl.security.domain.notauthorized";
                 name := "RequestSSLError";
                 message := Some ("SSL authorization failed. URL to " +:+ u +:+
                   " is not authorized for SSL.") |}
  /\ createErrorMessage domain_fingerprint_mismatch [u] =
       Return {| id := "request.ssl.security.domain.fingerprint.mismatch";
                 name := "RequestSSLError";
                 message := Some ("SSL authorization failed. URL to " +:+ u +:+
                   " is not authorized for SSL. Mismatched SSL fingerprint. This likely means that the URL doesn't point to the expected server or there is an unexpected man-in-the-middle.") |}.
Proof. repeat split; reflexivity. Qed.

(** *** The label of a fingerprint text *)

Lemma strip_prefix_Some (p s r : string) :
  JS.strip_prefix p s = Some r -> s = p +:+ r.
Proof.
  revert s. induction p as [|a p IH]; intros s; cbn [JS.strip_prefix].
  - now intros [= ->].
  - destruct s as [|b s]; [discriminate|].
    destruct (Ascii.eqb_spec a b) as [->|]; [|discriminate].
    intros H. apply IH in H. now rewrite H.
Qed.

(** X14: the label is [SHA1], one white-space character of any kind and
    [Fingerprint=]; a text that starts with it is stored without it, and
    every other text is stored as it is.  Only one label is removed. *)
Theorem strip_label_cases (fingerprint : string) :
  (forall c value, JS.is_space c = true ->
     strip_label ("SHA1" +:+ String c ("Fingerprint=" +:+ value)) = value)
  /\ (strip_label fingerprint = fingerprint
      \/ exists c, JS.is_space c = true
           /\ fingerprint
              = "SHA1" +:+ String c ("Fingerprint=" +:+ strip_label fingerprint)).
Proof.
  split.
  - intros c value Hc. unfold strip_label.
    rewrite strip_prefix_app, Hc. now rewrite strip_prefix_app.
  - unfold strip_label.
    destruct (JS.strip_prefix "SHA1" fingerprint) as [[|c rest]|] eqn:E1; auto.
    destruct (JS.is_space c) eqn:Hc; auto.
    destruct (JS.strip_prefix "Fingerprint=" rest) as [value|] eqn:E2; auto.
    right. exists c. split; [exact Hc|].
    apply strip_prefix_Some in E1, E2. now rewrite E1, E2.
Qed.

Lemma strip_label_cases_witness :
  strip_label ("SHA1" +:+ String (ascii_of_nat 9) ("Fingerprint=" +:+ "AA:BB")) = "AA:BB"
  /\ strip_label "sha1 fingerprint=AA:BB" = "sha1 fingerprint=AA:BB".
Proof.
  split.
  - apply (proj1 (strip_label_cases "")). reflexivity.
  - destruct (proj2 (strip_label_cases "sha1 fingerprint=AA:BB")) as [H|(c & _ & H)];
      [exact H|discriminate H].
Defined.

(** *** Loading a directory of fingerprints *)

Lemma addFingerprintDirectory_app (dir1 dir2 : list (string * string)) (g : globals) :
  addFingerprintDirectory (dir1 ++ dir2) g =
    match addFingerprintDirectory dir1 g with
    | (Return _, g') => addFingerprintDirectory dir2 g'
    | (Throw e, g') => (Throw e, g')
    end.
Proof.
  revert g. induction dir1 as [|[n c] dir1 IH]; intros g; [reflexivity|].
  cbn [app addFingerprintDirectory]. unfold mbind, M_bind, bind.
  destruct (addFingerprint n (JS.trim c) g) as [[[]|e] g1]; [apply IH|reflexivity].
Qed.

(** Loading files that are all accepted succeeds and touches only their
    keys. *)
Lemma addFingerprintDirectory_frame (dir : list (string * string)) (g : globals) :
  Forall loadable dir ->
  exists g', addFingerprintDirectory dir g = (Return tt, g')
    /\ secureProtocol g' = secureProtocol g
    /\ _lastURL g' = _lastURL g
    /\ forall k, k ∉ map (fun file => getDomain file.1) dir ->
         fingerprints g' !! k = fingerprints g !! k.
Proof.
  intros H. revert g. induction H as [|[n c] dir [Hn Hc] _ IH]; intros g.
  - exists g. now repeat split.
  - cbn [fst snd] in Hn, Hc. cbn [addFingerprintDirectory].
    unfold mbind, M_bind, bind. rewrite (addFingerprint_stores g n _ Hn Hc).
    destruct (IH (set_fingerprints
                    (obj_set (getDomain n) (strip_label (JS.trim c))) g))
      as (g' & -> & Hs & Hl & Hk).
    exists g'. repeat split; [exact Hs|exact Hl|].
    intros k Hnotin. cbn [map fst] in Hnotin.
    apply not_elem_of_cons in Hnotin as [Hne Hnotin].
    rewrite (Hk k Hnotin). cbn [fingerprints set_fingerprints].
    now apply obj_set_other.
Qed.

(** X15: a directory whose files all have a name without user information
    and contents that are not blank loads without an exception, and
    afterwards each file whose key is not [__proto__] and not the key of a
    later file is registered under its name with its trimmed contents,
    label removed; keys of no file are left as they were. *)
Theorem addFingerprintDirectory_registers (dir1 dir2 : list (string * string))
  (name contents : string) (g : globals) :
  Forall loadable (dir1 ++ (name, contents) :: dir2) ->
  Forall (fun file => no_userinfo file.1) (dir1 ++ (name, contents) :: dir2) ->
  getDomain name <> "__proto__" ->
  getDomain name ∉ map (fun file => getDomain file.1) dir2 ->
  exists g',
    addFingerprintDirectory (dir1 ++ (name, contents) :: dir2) g = (Return tt, g')
    /\ fingerprints g' !! getDomain name = Some (strip_label (JS.trim contents))
    /\ (forall k,
          k ∉ map (fun file => getDomain file.1) (dir1 ++ (name, contents) :: dir2) ->
          fingerprints g' !! k = fingerprints g !! k).
Proof.
  intros Hall _ Hproto Hlater.
  destruct (addFingerprintDirectory_frame _ g Hall) as (g' & E & _ & _ & Hframe).
  exists g'. split; [exact E|]. split; [|exact Hframe].
  apply Forall_app in Hall as [H1 H2]. apply Forall_cons in H2 as [[Hn Hc] H2].
  cbn [fst snd] in Hn, Hc.
  destruct (addFingerprintDirectory_frame dir1 g H1) as (g1 & E1 & _).
  rewrite addFingerprintDirectory_app, E1 in E.
  cbn [addFingerprintDirectory] in E. unfold mbind, M_bind, bind in E.
  rewrite (addFingerprint_stores g1 name _ Hn Hc) in E.
  destruct (addFingerprintDirectory_frame dir2
              (set_fingerprints
                 (obj_set (getDomain name) (strip_label (JS.trim contents))) g1)
              H2) as (g2 & E2 & _ & _ & Hk2).
  rewrite E2 in E. injection E as <-.
  rewrite (Hk2 _ Hlater). cbn [fingerprints set_fingerprints].
  rewrite (obj_set_insert _ _ _ Hproto). apply lookup_insert_eq.
Qed.

Lemma addFingerprintDirectory_registers_witness :
  exists g',
    addFingerprintDirectory
      ([("example.com", "SHA1 Fingerprint=AA:BB  ")] ++ ("api.example.org", "  CC:DD  ") :: []) initial_globals = (Return tt, g')
    /\ fingerprints g' !! "api.example.org" = Some "CC:DD"
    /\ fingerprints g' !! "example.com" = Some "AA:BB".
Proof.
  destruct (addFingerprintDirectory_registers
              [("example.com", "SHA1 Fingerprint=AA:BB  ")] [] "api.example.org" "  CC:DD  " initial_globals)
    as (g' & E & Hl & _).
  - repeat constructor; cbn; discriminate.
  - repeat constructor.
  - vm_compute. discriminate.
  - apply not_elem_of_nil.
  - exists g'. split; [exact E|]. split; [exact Hl|].
    vm_compute in E. injection E as <-. vm_compute. reflexivity.
Defined.

(** X16: a file that is empty or blank stops the load with
    [missing fingerprint]: the files listed before it stay registered and
    the files after it are not read. *)
Theorem addFingerprintDirectory_blank_file (dir1 dir2 : list (string * string))
  (name contents : string) (g : globals) :
  Forall loadable dir1 -> name <> EmptyString -> JS.trim contents = EmptyString ->
  exists g1,
    addFingerprintDirectory dir1 g = (Return tt, g1)
    /\ addFingerprintDirectory (dir1 ++ (name, contents) :: dir2) g
       = (Throw {| error_message := "missing fingerprint" |}, g1).
Proof.
  intros H1 Hn Hc.
  destruct (addFingerprintDirectory_frame dir1 g H1) as (g1 & E1 & _).
  exists g1. split; [exact E1|].
  rewrite addFingerprintDirectory_app, E1. cbn [addFingerprintDirectory].
  unfold mbind, M_bind, bind, addFingerprint. rewrite Hc.
  apply truthy_true in Hn. now rewrite Hn.
Qed.

Lemma addFingerprintDirectory_blank_file_witness :
  exists g1,
    addFingerprintDirectory [("example.com", "AA:BB")] initial_globals = (Return tt, g1)
    /\ addFingerprintDirectory
         ([("example.com", "AA:BB")] ++ ("empty.example.org", "  ") :: [("late.example.org", "CC")])
         initial_globals
       = (Throw {| error_message := "missing fingerprint" |}, g1)
    /\ fingerprints g1 !! "late.example.org" = None.
Proof.
  destruct (addFingerprintDirectory_blank_file [("example.com", "AA:BB")]
              [("late.example.org", "CC")] "empty.example.org" "  " initial_globals)
    as (g1 & E1 & E).
  - repeat constructor; cbn; discriminate.
  - discriminate.
  - reflexivity.
  - exists g1. split; [exact E1|]. split; [exact E|].
    vm_compute in E1. injection E1 as <-. vm_compute. reflexivity.
Defined.

(** *** Whole scenarios *)

Lemma lookup_in_empty (url : string) :
  getFingerprintForURL ∅ url
  = if inherited (getDomain url) then Inherited (getDomain url) else Undefined.
Proof.
  unfold getFingerprintForURL, obj_get. rewrite !lookup_empty.
  rewrite wildcard_not_inherited.
  destruct (inherited (getDomain url)); reflexivity.
Qed.

(** The effect that reports an error: the caller's callback when there is
    one, the ['error'] event otherwise. *)
Lemma first_report (o : options) (callback : bool) (u : string)
  (tr : list effect) (err : RequestSSLError) :
  trace (latch err (mk_request o callback true u callback callback tr))
  = tr ++ [if callback then Callback err else EmitError err].
Proof. now destruct callback. Qed.

(** X17: the library fails closed.  Once [removeAllFingerprints] has run,
    the first response of any HTTPS request is aborted and reported,
    whatever certificate it showed: as [domain.invalid] for the host that
    answered, and as [domain.fingerprint.mismatch] when the key of that host
    names a member of [Object.prototype], which the lookup then returns. *)
Theorem empty_registry_rejects_every_response (g : globals) (o : options)
  (callback : bool) (host fingerprint : string) :
  Url.protocol (Url.parse (opt_url o)) = Some "https:" ->
  no_userinfo host ->
  exists g0 r g1 r2 g2 err,
    removeAllFingerprints g = (Return tt, g0)
    /\ Request o callback g0 = (Return r, g1)
    /\ snd (deliver (response host fingerprint) (g1, r)) = (g2, r2)
    /\ trace r2 = [Abort; if callback then Callback err else EmitError err]
    /\ createErrorMessage
         (if inherited (getDomain host) then domain_fingerprint_mismatch
          else domain_invalid) [host] = Return err
    /\ id err = (if inherited (getDomain host) then domain_fingerprint_mismatch
                 else domain_invalid).
Proof.
  intros H _.
  destruct (createErrorMessage_one
              (if inherited (getDomain host) then domain_fingerprint_mismatch
               else domain_invalid) host) as (err & E & Hid).
  { destruct (inherited (getDomain host));
      [exact recognized_mismatch|exact recognized_invalid]. }
  eexists _, _, _, _, _, err. split; [reflexivity|].
  rewrite Request_https by exact H. split; [reflexivity|].
  rewrite deliver_step by reflexivity. split; [reflexivity|].
  split; [|split; [exact E|exact Hid]].
  unfold step_request, rejection.
  cbn [fingerprints set_lastURL set_fingerprints url].
  rewrite lookup_in_empty.
  destruct (inherited (getDomain host)); cbn [truthy_value negb].
  - rewrite bool_decide_eq_false_2 by discriminate. cbn [negb]. rewrite E.
    cbn [url_after transport_opts transport_callback isSSL hasCallback
         originalCallback trace app].
    now rewrite first_report.
  - rewrite E.
    cbn [url_after transport_opts transport_callback isSSL hasCallback
         originalCallback trace app].
    now rewrite first_report.
Qed.

Lemma empty_registry_rejects_every_response_witness :
  let g := snd (addFingerprint "example.com" "AA11" initial_globals) in
  exists g0 r g1 r2 g2 err,
    removeAllFingerprints g = (Return tt, g0)
    /\ Request {| opt_url := "https://example.com/"; agentOptions := None |} true g0
       = (Return r, g1)
    /\ snd (deliver (response "example.com" "AA11") (g1, r)) = (g2, r2)
    /\ trace r2 = [Abort; Callback err]
    /\ id err = domain_invalid.
Proof.
  intros g.
  destruct (empty_registry_rejects_every_response g
              {| opt_url := "https://example.com/"; agentOptions := None |}
              true "example.com" "AA11" eq_refl eq_refl)
    as (g0 & r & g1 & r2 & g2 & err & E0 & E & D & Ht & _ & Hi).
  exists g0, r, g1, r2, g2, err. repeat split; assumption.
Defined.

(** X18: the error of an unauthorized socket names the URL as the caller
    wrote it while no response has arrived, and the host of the latest
    response once one has been let through, as after a redirect. *)
Theorem notauthorized_names_latest_host (o : options) (callback : bool)
  (g : globals) (host fingerprint : string) :
  Url.protocol (Url.parse (opt_url o)) = Some "https:" ->
  accepted (fingerprints g) (response host fingerprint) = true ->
  exists r g1 r2 g2 r3 g3 err2 err3,
    Request o callback g = (Return r, g1)
    /\ deliver (secureConnect false) (g1, r) = (Return tt, (g2, r2))
    /\ trace r2 = [Abort; if callback then Callback err2 else EmitError err2]
    /\ message err2 = Some ("SSL authorization failed. URL to " +:+ opt_url o +:+
         " is not authorized for SSL.")
    /\ deliver_all [response host fingerprint; secureConnect false] (g1, r)
       = (Return tt, (g3, r3))
    /\ trace r3 = [Abort; if callback then Callback err3 else EmitError err3]
    /\ message err3 = Some ("SSL authorization failed. URL to " +:+ host +:+
         " is not authorized for SSL.")
    /\ id err2 = domain_notauthorized /\ id err3 = domain_notauthorized.
Proof.
  intros H Hacc. eexists _, _, _, _, _, _, _, _.
  rewrite Request_https by exact H. split; [reflexivity|].
  rewrite deliver_step by reflexivity. split; [reflexivity|].
  assert (E : forall u, createErrorMessage domain_notauthorized [u] =
    Return (new_RequestSSLError
              (Some ("SSL authorization failed. URL to " +:+ u +:+
                     " is not authorized for SSL.")) domain_notauthorized))
    by reflexivity.
  split.
  { unfold step_request. cbn [rejection url]. rewrite E.
    cbn [url_after transport_opts transport_callback isSSL hasCallback
         originalCallback trace app].
    rewrite first_report. reflexivity. }
  split; [reflexivity|].
  rewrite deliver_all_steps by reflexivity. split; [reflexivity|].
  cbn [fingerprints set_lastURL steps_request fold_left].
  unfold step_request at 2.
  rewrite (rejection_accepted _ _ _ Hacc).
  unfold step_request. cbn [rejection url url_after]. rewrite E.
  cbn [transport_opts transport_callback isSSL hasCallback originalCallback
       trace app].
  rewrite first_report. repeat split.
Qed.

Lemma notauthorized_names_latest_host_witness :
  let g := snd (addFingerprint "cdn.example.net" "AA11" initial_globals) in
  exists r g1 r3 g3 err3,
    Request {| opt_url := "https://example.com/start"; agentOptions := None |} true g
      = (Return r, g1)
    /\ deliver_all [response "cdn.example.net" "AA11"; secureConnect false] (g1, r)
       = (Return tt, (g3, r3))
    /\ trace r3 = [Abort; Callback err3]
    /\ message err3
       = Some "SSL authorization failed. URL to cdn.example.net is not authorized for SSL.".
Proof.
  intros g.
  destruct (notauthorized_names_latest_host
              {| opt_url := "https://example.com/start"; agentOptions := None |}
              true g "cdn.example.net" "AA11" eq_refl)
    as (r & g1 & r2 & g2 & r3 & g3 & err2 & err3 & E & _ & _ & _ & D & Ht & Hm & _).
  - vm_compute. reflexivity.
  - exists r, g1, r3, g3, err3. repeat split; assumption.
Defined.

(** *** A host written with its port and without a scheme *)

Lemma trimEnd_nonspace (s : string) :
  JS.forallb_str (fun c => negb (JS.is_space c)) s = true -> JS.trimEnd s = s.
Proof.
  intros H. rewrite <- (append_empty s) at 1. rewrite trimEnd_app by exact H.
  apply append_empty.
Qed.

Lemma break_none (stop : ascii -> bool) (s : string) :
  JS.forallb_str (fun c => negb (stop c)) s = true ->
  JS.break stop s = (s, EmptyString).
Proof.
  induction s as [|c s IH]; cbn [JS.forallb_str JS.break]; [reflexivity|].
  intros [Hc Hs]%andb_prop. apply negb_true_iff in Hc. now rewrite Hc, IH.
Qed.

Lemma proto_char_classes (c : ascii) :
  Url.is_proto_char c = true ->
  JS.is_space c = false /\ Ascii.eqb c ":" = false.
Proof.
  destruct c as [[] [] [] [] [] [] [] []]; vm_compute; intros H;
    first [discriminate H | repeat split].
Qed.

Lemma digit_is_hostname_char (c : ascii) :
  JS.is_digit c = true ->
  Url.is_hostname_char c = true /\ JS.lower_char c = c
  /\ Ascii.eqb c "." = false /\ Ascii.eqb c "/" = false /\ Ascii.eqb c "[" = false.
Proof.
  destruct c as [[] [] [] [] [] [] [] []]; vm_compute; intros H;
    first [discriminate H | repeat split].
Qed.

Lemma proto_run_app (h rest : string) :
  JS.forallb_str Url.is_proto_char h = true ->
  Url.proto_run (h +:+ String ":" rest) = Some (h, rest).
Proof.
  induction h as [|c h IH]; [reflexivity|].
  cbn [JS.forallb_str]. intros [Hc Hh]%andb_prop.
  change (String c h +:+ String ":" rest) with (String c (h +:+ String ":" rest)).
  cbn [Url.proto_run]. destruct (proto_char_classes c Hc) as [_ ->].
  now rewrite Hc, IH.
Qed.

Lemma split_no_separator (sep : ascii) (s : string) :
  JS.forallb_str (fun c => negb (Ascii.eqb c sep)) s = true ->
  JS.split sep s = [s].
Proof.
  induction s as [|c s IH]; cbn [JS.forallb_str JS.split]; [reflexivity|].
  intros [Hc Hs]%andb_prop. apply negb_true_iff in Hc. now rewrite Hc, IH.
Qed.

Lemma toLowerCase_digits (s : string) :
  JS.forallb_str JS.is_digit s = true -> JS.toLowerCase s = s.
Proof.
  induction s as [|c s IH]; cbn [JS.forallb_str JS.toLowerCase]; [reflexivity|].
  intros [Hc Hs]%andb_prop.
  destruct (digit_is_hostname_char c Hc) as (_ & -> & _). now rewrite IH.
Qed.

(** The host that the parser finds in a text of digits only. *)
Lemma parse_host_digits (port : string) (u : Url.t) :
  JS.forallb_str JS.is_digit port = true -> (String.length port <= 63)%nat ->
  Url.host (Url.parse_host port u) = Some port.
Proof.
  intros Hd Hlen. unfold Url.parse_host.
  rewrite (break_none (fun c => Url.mem_char c Url.hostEndingChars) port);
    [|revert Hd; apply forallb_str_impl; intros c Hc;
      now destruct (digit_classes c Hc) as (_ & -> & _)].
  rewrite (break_last_absent "@" port);
    [|revert Hd; apply forallb_str_impl; intros c Hc;
      now destruct (digit_classes c Hc) as (_ & _ & _ & -> & _)].
  rewrite (break_none (fun c => Url.mem_char c Url.nonHostChars) port);
    [|revert Hd; apply forallb_str_impl; intros c Hc;
      now destruct (digit_classes c Hc) as (_ & _ & -> & _)].
  unfold Url.portPattern. rewrite (break_last_absent ":" port);
    [|revert Hd; apply forallb_str_impl; intros c Hc;
      now destruct (digit_classes c Hc) as (_ & _ & _ & _ & ->)].
  assert (Hipv6 : Url.is_ipv6Hostname port = false).
  { destruct port as [|c port]; [reflexivity|]. cbn [JS.forallb_str] in Hd.
    apply andb_prop in Hd as [Hc _]. unfold Url.is_ipv6Hostname.
    now destruct (digit_is_hostname_char c Hc) as (_ & _ & _ & _ & ->). }
  assert (Hvalid : Url.validate_hostname port = port).
  { unfold Url.validate_hostname. rewrite split_no_separator;
      [|revert Hd; apply forallb_str_impl; intros c Hc;
        now destruct (digit_is_hostname_char c Hc) as (_ & _ & -> & _)].
    rewrite validate_parts_valid; [reflexivity|].
    cbn [forallb]. unfold Url.hostnamePartPattern.
    rewrite (forallb_str_impl JS.is_digit Url.is_hostname_char port);
      [|intros c Hc; now destruct (digit_is_hostname_char c Hc)|exact Hd].
    cbn. rewrite andb_true_r. now apply Nat.leb_le. }
  rewrite Hipv6, Hvalid.
  assert (Hmax : (Url.hostnameMaxLen <? String.length port)%nat = false).
  { apply Nat.ltb_ge. unfold Url.hostnameMaxLen. lia. }
  rewrite Hmax. cbn [Url.host]. now rewrite (toLowerCase_digits port Hd), append_empty.
Qed.

(** X19: a host written with a port but without a scheme, as in
    [example.com:8443], is not keyed by the host: [url.parse] takes the text
    before the colon for a protocol, and the key is the port alone.  This is
    the form in which the response listener receives the host of a URL with
    an explicit port. *)
Theorem host_with_port_is_keyed_by_port (h port : string) :
  JS.forallb_str Url.is_proto_char h = true -> h <> EmptyString ->
  Url.hostlessProtocol (h +:+ ":") = false ->
  Url.slashedProtocol (h +:+ ":") = false ->
  JS.forallb_str JS.is_digit port = true -> port <> EmptyString ->
  (String.length port <= 63)%nat ->
  getDomain (h +:+ String ":" port) = port
  /\ forall fps v, fps !! port = Some v -> v <> EmptyString ->
       getFingerprintForURL fps (h +:+ String ":" port) = Str v.
Proof.
  intros Hh Hne Hhostless Hslashed Hd Hp Hlen.
  assert (E : getDomain (h +:+ String ":" port) = port).
  { unfold getDomain, Url.parse.
    assert (Hsp : JS.forallb_str (fun c => negb (JS.is_space c))
                    (h +:+ String ":" port) = true).
    { rewrite forallb_str_app. cbn [JS.forallb_str].
      rewrite (forallb_str_impl Url.is_proto_char _ h); [|intros c Hc|exact Hh].
      2:{ now destruct (proto_char_classes c Hc) as [-> _]. }
      rewrite (forallb_str_impl JS.is_digit _ port); [reflexivity|intros c Hc|exact Hd].
      now destruct (digit_classes c Hc) as (-> & _). }
    unfold JS.trim. rewrite trimStart_app, trimEnd_nonspace; [|exact Hsp| |].
    2:{ revert Hh. apply forallb_str_impl. intros c Hc.
        now destruct (proto_char_classes c Hc) as [-> _]. }
    2:{ exact Hne. }
    unfold Url.protocolPattern. rewrite (proto_run_app h port Hh).
    destruct h as [|c h]; [contradiction|]. cbv beta iota zeta.
    cbn [from_option]. rewrite Hhostless, Hslashed.
    assert (Hstrip : JS.strip_prefix "//" port = None).
    { destruct port as [|d port]; [reflexivity|]. cbn [JS.forallb_str] in Hd.
      apply andb_prop in Hd as [Hc _]. cbn [JS.strip_prefix].
      destruct (digit_is_hostname_char d Hc) as (_ & _ & _ & Hs & _).
      rewrite Ascii.eqb_sym, Hs. reflexivity. }
    rewrite Hstrip.
    rewrite (bool_decide_eq_false_2 (is_Some (@None string)))
      by (intros [x Hx]; discriminate).
    rewrite !andb_false_r. cbn [andb orb negb].
    rewrite (parse_host_digits port _ Hd Hlen). cbn [JS.or_else].
    apply truthy_true in Hp. now rewrite Hp. }
  split; [exact E|]. intros fps v Hv Hvne.
  apply lookup_exact; [now rewrite E|exact Hvne].
Qed.

Lemma host_with_port_is_keyed_by_port_witness :
  getDomain "example.com:8443" = "8443"
  /\ getFingerprintForURL {[ "8443" := "AA:BB:CC" ]} "example.com:8443"
     = Str "AA:BB:CC".
Proof.
  destruct (host_with_port_is_keyed_by_port "example.com" "8443") as [E Hl].
  - vm_compute. reflexivity.
  - discriminate.
  - vm_compute. reflexivity.
  - vm_compute. reflexivity.
  - vm_compute. reflexivity.
  - discriminate.
  - cbn. lia.
  - split; [exact E|]. apply Hl; [vm_compute; reflexivity|discriminate].
Defined.
